(** * aiida-kkr: workflow steps, parent traversal, Jij reduction and the
      output-parser contract, embedded from the Python sources.

    - [CombineImps]: steps of [combine_imps_wc] and the calcfunction
      [parse_Jij] (workflows/_combine_imps.py).
    - [Voro]: [VoronoiCalculation.find_parent_structure]
      (calculations/voro.py).
    - [Dos]: [kkr_dos_wc.define] / [kkr_dos_wc.start] (workflows/dos.py).
    - [CombineImpsSteps]: further steps of [combine_imps_wc]
      ([update_params], [check_host_gf], [_check_input_imp]).
    - [DosSteps]: [kkr_dos_wc.return_results] (workflows/dos.py).
    - [KkrParser]: the aggregation engine of [parse_kkr_outputfile]
      (module aiida_kkr.tools.kkrparser_functions), with the message lists
      of tests/test_kkrparser_functions.py. *)

From Stdlib Require Import ZArith QArith List String Bool Lia.
From stdpp Require Import gmap strings list.

Local Open Scope string_scope.
Local Open Scope Z_scope.
Local Open Scope list_scope.

(** ** Steps of a WorkChain: a state-and-exception monad.

    A step of an AiiDA WorkChain reads [self.inputs], reads and writes
    [self.ctx], emits reports, calls calcfunctions and submits processes.
    The observable effects are kept in an event log next to the context. *)
Module Wc.

Inductive exn : Type :=
  | AttributeError (attr : string)
  | KeyError (key : string).

Inductive result (A : Type) : Type :=
  | Ok (a : A)
  | Raised (e : exn).
Arguments Ok {A} a.
Arguments Raised {A} e.

(** What a step does to the outside: [self.report] (with the message as
    written in the source, before formatting), the call of a calcfunction,
    [self.submit]. *)
Inductive event : Type :=
  | Report (msg : string)
  | CalcFunction (name : string)
  | Submit (label : string).

Section Monad.
Context {C : Type}.

Record state : Type := mkState { ctx : C; log : list event }.

Definition wc (A : Type) : Type := state -> result A * state.

Definition ret {A} (a : A) : wc A := fun s => (Ok a, s).

Definition bind {A B} (m : wc A) (f : A -> wc B) : wc B :=
  fun s => match m s with
    | (Ok a, s') => f a s'
    | (Raised e, s') => (Raised e, s')
    end.

Definition raise {A} (e : exn) : wc A := fun s => (Raised e, s).

Definition get_ctx : wc C := fun s => (Ok (ctx s), s).

Definition modify_ctx (f : C -> C) : wc unit :=
  fun s => (Ok tt, mkState (f (ctx s)) (log s)).

Definition emit (e : event) : wc unit :=
  fun s => (Ok tt, mkState (ctx s) (log s ++ [e])).

(** [self.report(msg)] *)
Definition report (msg : string) : wc unit := emit (Report msg).

(** attribute access [self.ctx.<attr>] on an attribute that is only
    there once an earlier step has set it *)
Definition ctx_attr {A} (attr : string) (proj : C -> option A) : wc A :=
  fun s => match proj (ctx s) with
    | Some a => (Ok a, s)
    | None => (Raised (AttributeError attr), s)
    end.
End Monad.
Arguments state C : clear implicits.
Arguments wc C A : clear implicits.

Definition is_submit (e : event) : bool :=
  match e with Submit _ => true | _ => false end.

End Wc.

Declare Scope wc_scope.
Delimit Scope wc_scope with wc.
Notation "x <- m ;; k" := (Wc.bind m (fun x => k))
  (at level 100, m at next level, right associativity) : wc_scope.
Notation "m ;;; k" := (Wc.bind m (fun _ => k))
  (at level 100, k at level 200, right associativity) : wc_scope.

(** ** combine_imps_wc (workflows/_combine_imps.py) *)
Module CombineImps.
Import Wc.
Local Open Scope wc_scope.

(** [spec.exit_code(...)] of [combine_imps_wc.define] *)
Inductive exit_code : Type :=
| ERROR_SOMETHING_WENT_WRONG
| ERROR_HOST_STRUCTURES_INCONSISTENT
| ERROR_INPUT_NOT_SINGLE_IMP_CALC
| ERROR_INPLANE_NEIGHBOR_TOO_SMALL
| ERROR_INCONSISTENT_NSPIN_VALUES
| ERROR_HOST_GF_CALC_FAILED.

Definition exit_status (e : exit_code) : Z :=
  match e with
  | ERROR_SOMETHING_WENT_WRONG => 999
  | ERROR_HOST_STRUCTURES_INCONSISTENT => 900
  | ERROR_INPUT_NOT_SINGLE_IMP_CALC => 800
  | ERROR_INPLANE_NEIGHBOR_TOO_SMALL => 850
  | ERROR_INCONSISTENT_NSPIN_VALUES => 950
  | ERROR_HOST_GF_CALC_FAILED => 700
  end.

#[global] Instance exit_code_eq_dec : EqDecision exit_code.
Proof. solve_decision. Defined.

(** What a step method hands back to the engine: [None] (fall off the end
    of the method: go on with the outline) or an exit code (stop). *)
Definition step_return : Type := option exit_code.

Section Workflow.

(** Nodes of the provenance graph and the helpers of
    aiida_kkr.tools.combine_imps are not part of these sources; the steps
    are embedded over them. *)
Variables (Structure ImpInfo Kickout Potential Builder : Type).

(** [impinfo['ilayer_center']] *)
Variable ilayer_center : ImpInfo -> Z.
(** [get_zimp(impurity_info)] *)
Variable get_zimp : ImpInfo -> list Z.

(** [self.inputs.offset_imp2]: [start] has already read
    [offset_imp2['index']], so the key is there when later steps run. *)
Record offset_dict : Type := mkOffset { index : Z; vector : option (list Q) }.

(** [create_combined_imp_info_cf(host_structure, impinfo1, impinfo2, offset)]:
    [out_dict['imp_info_combined']] and [out_dict['kickout_info']] *)
Variable create_combined_imp_info_cf :
  Structure -> ImpInfo -> ImpInfo -> offset_dict -> ImpInfo * Kickout.

(** An impurity calculation or workflow node, as far as the steps look
    into it: [imp.inputs.impurity_info] and [get_nspin_and_pot(imp)]. *)
Record imp_node : Type := mkImp {
  impurity_info : ImpInfo;
  nspin_of : Z;
  pot_of : Potential
}.

Definition get_nspin_and_pot (imp : imp_node) : Z * Potential :=
  (nspin_of imp, pot_of imp).

(** [combine_potentials_cf(kickout_info, pot_imp1, pot_imp2, Int(nspin1))] *)
Variable combine_potentials_cf : Kickout -> Potential -> Potential -> Z -> Potential.

(** A finished sub-process as it sits in the context after [ToContext]. *)
Record process_node : Type := mkProc {
  is_finished_ok : bool;
  proc_label : string
}.

(** What the engine awaits for a submitted builder. *)
Variable await : Builder -> process_node.

(** [last_calc.get_builder_restart()] with the Jij settings of
    [run_jij_step] applied ([CALCJIJMAT = 1], new potential, no parent
    folder), from the finished scf sub-workflow. *)
Variable jij_builder : process_node -> Builder.
(** [builder.metadata.label] of that builder *)
Variable jij_label : Builder -> string.

(** [self.inputs] *)
Record inputs : Type := mkInputs {
  offset_imp2 : offset_dict
}.

(** [self.ctx]: attributes set by later steps are absent ([None]) before. *)
Record context : Type := mkCtx {
  imp1 : imp_node;
  imp2 : imp_node;
  host_structure : Structure;
  imp_info_combined : option ImpInfo;
  kickout_info : option Kickout;
  combined_potentials : option Potential;
  run_options : gmap string bool;
  jij_option : bool;
  kkrimp_scf_sub : option process_node;
  imp_scf_combined_jij : option process_node
}.

Definition set_cluster (ii : ImpInfo) (k : Kickout) (c : context) : context :=
  mkCtx (imp1 c) (imp2 c) (host_structure c) (Some ii) (Some k)
        (combined_potentials c) (run_options c) (jij_option c)
        (kkrimp_scf_sub c) (imp_scf_combined_jij c).

Definition set_combined_potentials (p : Potential) (c : context) : context :=
  mkCtx (imp1 c) (imp2 c) (host_structure c) (imp_info_combined c)
        (kickout_info c) (Some p) (run_options c) (jij_option c)
        (kkrimp_scf_sub c) (imp_scf_combined_jij c).

Definition set_jij_option (b : bool) (c : context) : context :=
  mkCtx (imp1 c) (imp2 c) (host_structure c) (imp_info_combined c)
        (kickout_info c) (combined_potentials c) (run_options c) b
        (kkrimp_scf_sub c) (imp_scf_combined_jij c).

Definition set_imp_scf_combined_jij (p : process_node) (c : context) : context :=
  mkCtx (imp1 c) (imp2 c) (host_structure c) (imp_info_combined c)
        (kickout_info c) (combined_potentials c) (run_options c) (jij_option c)
        (kkrimp_scf_sub c) (Some p).

(** [get_and_check_zimp_list] *)
Definition get_and_check_zimp_list (ii : ImpInfo) : list Z * bool :=
  let zimp := get_zimp ii in
  (zimp, Nat.eqb (length zimp) 1).

(** [create_big_cluster] *)
Definition create_big_cluster (inp : inputs) : wc context step_return :=
  c <- get_ctx ;;
  let impinfo1 := impurity_info (imp1 c) in
  let impinfo2 := impurity_info (imp2 c) in
  report "create combined imp_info:" ;;;
  report "host structure: {}" ;;;
  report "imp info 1: {}" ;;;
  report "imp info 2: {}" ;;;
  if index (offset_imp2 inp) <? 0 then ret (Some ERROR_INPLANE_NEIGHBOR_TOO_SMALL)
  else if (ilayer_center impinfo1 =? ilayer_center impinfo2)
          && (index (offset_imp2 inp) <? 1)
  then ret (Some ERROR_INPLANE_NEIGHBOR_TOO_SMALL)
  else if negb (snd (get_and_check_zimp_list impinfo1))
  then ret (Some ERROR_INPUT_NOT_SINGLE_IMP_CALC)
  else if negb (snd (get_and_check_zimp_list impinfo2))
  then ret (Some ERROR_INPUT_NOT_SINGLE_IMP_CALC)
  else
    emit (CalcFunction "create_combined_imp_info_cf") ;;;
    let out_dict :=
      create_combined_imp_info_cf (host_structure c) impinfo1 impinfo2 (offset_imp2 inp) in
    modify_ctx (set_cluster (fst out_dict) (snd out_dict)) ;;;
    ret None.

(** [create_big_potential] *)
Definition create_big_potential : wc context step_return :=
  c <- get_ctx ;;
  kickout <- ctx_attr "kickout_info" kickout_info ;;
  let '(nspin1, pot_imp1) := get_nspin_and_pot (imp1 c) in
  let '(nspin2, pot_imp2) := get_nspin_and_pot (imp2 c) in
  if negb (nspin1 =? nspin2) then ret (Some ERROR_INCONSISTENT_NSPIN_VALUES)
  else
    emit (CalcFunction "combine_potentials_cf") ;;;
    let output_potential_sfd_node :=
      combine_potentials_cf kickout pot_imp1 pot_imp2 nspin1 in
    modify_ctx (set_combined_potentials output_potential_sfd_node) ;;;
    ret None.

(** [run_jij]: the condition of [if_(cls.run_jij)(cls.run_jij_step)] *)
Definition run_jij : wc context bool :=
  sub <- ctx_attr "kkrimp_scf_sub" kkrimp_scf_sub ;;
  if negb (is_finished_ok sub) then
    report "ERROR_SOMETHING_WENT_WRONG" ;;;
    ret false
  else
    c <- get_ctx ;;
    match run_options c !! "jij_run" with
    | Some b => modify_ctx (set_jij_option b)
    | None => ret tt
    end ;;;
    c' <- get_ctx ;;
    ret (jij_option c').

(** [run_jij_step]; [return ToContext(imp_scf_combined_jij=future)] puts
    the awaited process into the context. *)
Definition run_jij_step : wc context step_return :=
  sub <- ctx_attr "kkrimp_scf_sub" kkrimp_scf_sub ;;
  if is_finished_ok sub then
    report "INFO: kkr_imp_sub_wc for combined impurity cluster is succefully done and jij step is getting prepared for launching." ;;;
    let builder := jij_builder sub in
    emit (Submit (jij_label builder)) ;;;
    report "INFO: Submiting Jij calculation (uuid=%s)" ;;;
    modify_ctx (set_imp_scf_combined_jij (await builder)) ;;;
    ret None
  else ret (Some ERROR_SOMETHING_WENT_WRONG).

(** The outline construct [if_(cond)(step)]: the step runs only when the
    condition method returned a true value. *)
Definition if_ (cond : wc context bool) (body : wc context step_return)
  : wc context step_return :=
  b <- cond ;;
  if b then body else ret None.

(** [if_(cls.run_jij)(cls.run_jij_step)] of [spec.outline] *)
Definition outline_jij : wc context step_return := if_ run_jij run_jij_step.


(** *** Properties of the steps *)

Ltac run_step :=
  repeat (unfold bind, ret, raise, get_ctx, modify_ctx, emit, report, ctx_attr in *;
          cbn [fst snd ctx log] in * ).

Definition same_layer (c : context) : Prop :=
  ilayer_center (impurity_info (imp1 c)) = ilayer_center (impurity_info (imp2 c)).

Definition cluster_reports : list string :=
  ["create combined imp_info:"; "host structure: {}"; "imp info 1: {}"; "imp info 2: {}"].

(** The step as one case analysis on the state it starts from. *)
Lemma create_big_cluster_cases (inp : inputs) (s : state context) :
  let c := ctx s in
  let impinfo1 := impurity_info (imp1 c) in
  let impinfo2 := impurity_info (imp2 c) in
  let idx := index (offset_imp2 inp) in
  let reported := log s ++ map Report cluster_reports in
  create_big_cluster inp s =
  if (idx <? 0) || ((ilayer_center impinfo1 =? ilayer_center impinfo2) && (idx <? 1))
  then (Ok (Some ERROR_INPLANE_NEIGHBOR_TOO_SMALL), mkState c reported)
  else if negb (length (get_zimp impinfo1) =? 1)%nat
          || negb (length (get_zimp impinfo2) =? 1)%nat
  then (Ok (Some ERROR_INPUT_NOT_SINGLE_IMP_CALC), mkState c reported)
  else
    let comb := create_combined_imp_info_cf (host_structure c) impinfo1 impinfo2
                  (offset_imp2 inp) in
    (Ok None, mkState (set_cluster (fst comb) (snd comb) c)
                      (reported ++ [CalcFunction "create_combined_imp_info_cf"])).
Proof.
  cbv zeta. unfold create_big_cluster, get_and_check_zimp_list. run_step.
  rewrite <- !app_assoc. cbn [app map cluster_reports].
  destruct (index (offset_imp2 inp) <? 0); [reflexivity |].
  destruct ((ilayer_center _ =? ilayer_center _) && _); [reflexivity |].
  cbn [orb].
  destruct (length (get_zimp (impurity_info (imp1 (ctx s)))) =? 1)%nat; [| reflexivity].
  destruct (length (get_zimp (impurity_info (imp2 (ctx s)))) =? 1)%nat; [| reflexivity].
  cbn. rewrite <- !app_assoc. reflexivity.
Qed.

(** The two guards on the offset index, as one condition. *)
Definition offset_rejected (inp : inputs) (c : context) : bool :=
  (index (offset_imp2 inp) <? 0)
  || ((ilayer_center (impurity_info (imp1 c)) =? ilayer_center (impurity_info (imp2 c)))
      && (index (offset_imp2 inp) <? 1)).

Lemma offset_rejected_iff (inp : inputs) (c : context) :
  offset_rejected inp c = true
  <-> (index (offset_imp2 inp) < 0 \/ (index (offset_imp2 inp) = 0 /\ same_layer c)).
Proof.
  unfold offset_rejected, same_layer.
  rewrite orb_true_iff, andb_true_iff, !Z.ltb_lt, Z.eqb_eq. lia.
Qed.

(** C3. [create_big_cluster] returns ERROR_INPLANE_NEIGHBOR_TOO_SMALL exactly
    when the offset index is negative, or is 0 with both impurities in the
    same host layer. When it does, the context is as before and nothing but
    the four reports has happened: no combined cluster was created. With
    offset index 0 and the impurities in different layers the step goes on;
    for two single-impurity inputs it calls create_combined_imp_info_cf
    and stores the combined cluster. *)
Theorem create_big_cluster_offset_check (inp : inputs) (s : state context) :
  let idx := index (offset_imp2 inp) in
  let out := create_big_cluster inp s in
  (fst out = Ok (Some ERROR_INPLANE_NEIGHBOR_TOO_SMALL)
     <-> (idx < 0 \/ (idx = 0 /\ same_layer (ctx s))))
  /\ (fst out = Ok (Some ERROR_INPLANE_NEIGHBOR_TOO_SMALL) ->
      ctx (snd out) = ctx s
      /\ log (snd out) = log s ++ map Report cluster_reports)
  /\ (idx = 0 -> ~ same_layer (ctx s) ->
      length (get_zimp (impurity_info (imp1 (ctx s)))) = 1%nat ->
      length (get_zimp (impurity_info (imp2 (ctx s)))) = 1%nat ->
      let comb := create_combined_imp_info_cf (host_structure (ctx s))
                    (impurity_info (imp1 (ctx s))) (impurity_info (imp2 (ctx s)))
                    (offset_imp2 inp) in
      fst out = Ok None
      /\ imp_info_combined (ctx (snd out)) = Some (fst comb)
      /\ kickout_info (ctx (snd out)) = Some (snd comb)).
Proof.
  cbv zeta. rewrite create_big_cluster_cases. cbv zeta.
  fold (offset_rejected inp (ctx s)).
  pose proof (offset_rejected_iff inp (ctx s)) as Hrej.
  destruct (offset_rejected inp (ctx s)) eqn:Erej.
  - split; [| split].
    + cbn. tauto.
    + intros _. cbn. auto.
    + intros H0 Hl. exfalso. destruct Hrej as [Hrej _].
      destruct (Hrej eq_refl) as [H | [_ H]]; [lia | contradiction].
  - assert (Hno : ~ (index (offset_imp2 inp) < 0
                     \/ index (offset_imp2 inp) = 0 /\ same_layer (ctx s))).
    { intros H. apply Hrej in H. discriminate. }
    split; [| split].
    + split; [| tauto]. destruct (_ || _); cbn; discriminate.
    + destruct (_ || _); cbn; discriminate.
    + intros _ _ Hz1 Hz2. rewrite Hz1, Hz2. cbn. auto.
Qed.

(** C4. With different spin counts, [create_big_potential] leaves context
    and log untouched, so combine_potentials_cf is not called and no
    combined potential is stored, and it returns
    ERROR_INCONSISTENT_NSPIN_VALUES. With equal spin counts it calls
    combine_potentials_cf once and stores the result in the context. *)
Theorem create_big_potential_nspin_check (s : state context) (kickout : Kickout) :
  kickout_info (ctx s) = Some kickout ->
  let nspin1 := nspin_of (imp1 (ctx s)) in
  let nspin2 := nspin_of (imp2 (ctx s)) in
  (nspin1 <> nspin2 ->
     create_big_potential s = (Ok (Some ERROR_INCONSISTENT_NSPIN_VALUES), s))
  /\ (nspin1 = nspin2 ->
      create_big_potential s =
      (Ok None,
       mkState
         (set_combined_potentials
            (combine_potentials_cf kickout (pot_of (imp1 (ctx s)))
                                   (pot_of (imp2 (ctx s))) nspin1) (ctx s))
         (log s ++ [CalcFunction "combine_potentials_cf"]))).
Proof.
  intros Hk nspin1 nspin2. subst nspin1 nspin2.
  unfold create_big_potential, get_nspin_and_pot. run_step. rewrite Hk.
  destruct (Z.eqb_spec (nspin_of (imp1 (ctx s))) (nspin_of (imp2 (ctx s)))) as [He | Hne];
    cbn [negb]; split; intros H; try contradiction; reflexivity.
Qed.

Definition submissions (l : list event) : list event := List.filter is_submit l.

Lemma submissions_app (l1 l2 : list event) :
  submissions (l1 ++ l2) = submissions l1 ++ submissions l2.
Proof. unfold submissions. apply List.filter_app. Qed.

(** C10. While the kkrimp scf sub-workflow has not finished successfully,
    [run_jij] returns False and leaves the context alone, [run_jij_step]
    returns ERROR_SOMETHING_WENT_WRONG without any effect, and the outline
    block [if_(run_jij)(run_jij_step)] is skipped: it submits nothing.
    Whenever that block or [run_jij_step] does submit, the sub-workflow in
    the context had finished successfully. *)
Theorem jij_needs_finished_scf (s : state context) :
  (forall sub, kkrimp_scf_sub (ctx s) = Some sub -> is_finished_ok sub = false ->
     fst (run_jij s) = Ok false
     /\ ctx (snd (run_jij s)) = ctx s
     /\ run_jij_step s = (Ok (Some ERROR_SOMETHING_WENT_WRONG), s)
     /\ fst (outline_jij s) = Ok None
     /\ ctx (snd (outline_jij s)) = ctx s
     /\ submissions (log (snd (outline_jij s))) = submissions (log s))
  /\ (submissions (log (snd (run_jij_step s))) <> submissions (log s) ->
      exists sub, kkrimp_scf_sub (ctx s) = Some sub /\ is_finished_ok sub = true)
  /\ (submissions (log (snd (outline_jij s))) <> submissions (log s) ->
      exists sub, kkrimp_scf_sub (ctx s) = Some sub /\ is_finished_ok sub = true).
Proof.
  split; [| split].
  - intros sub Hsub Hfin.
    unfold outline_jij, if_, run_jij, run_jij_step. run_step.
    rewrite Hsub, Hfin. cbn [negb fst snd ctx log].
    rewrite submissions_app, app_nil_r.
    destruct s; auto 10.
  - unfold run_jij_step. run_step.
    destruct (kkrimp_scf_sub (ctx s)) as [sub |] eqn:Hsub; cbn [snd]; [| congruence].
    destruct (is_finished_ok sub) eqn:Hfin; cbn [snd]; [eauto | congruence].
  - unfold outline_jij, if_, run_jij, run_jij_step. run_step.
    destruct (kkrimp_scf_sub (ctx s)) as [sub |] eqn:Hsub; cbn [snd]; [| congruence].
    destruct (is_finished_ok sub) eqn:Hfin; cbn [negb snd log]; [eauto |].
    rewrite submissions_app, app_nil_r. congruence.
Qed.

(** *** More on the steps *)

(** On a context in which [start] has put both impurity nodes and the
    host structure, [create_big_cluster] returns normally. It returns
    ERROR_INPUT_NOT_SINGLE_IMP_CALC exactly when the offset passes its
    guard and one of the two impurity infos does not have exactly one
    impurity charge, and it goes on exactly when the guard is passed and
    both have one. Only then create_combined_imp_info_cf is called, once,
    after the four reports; in every other case the context is untouched. *)
Theorem create_big_cluster_single_imp_check (inp : inputs) (s : state context) :
  let out := create_big_cluster inp s in
  let n1 := length (get_zimp (impurity_info (imp1 (ctx s)))) in
  let n2 := length (get_zimp (impurity_info (imp2 (ctx s)))) in
  (exists r, fst out = Ok r)
  /\ (fst out = Ok (Some ERROR_INPUT_NOT_SINGLE_IMP_CALC)
      <-> offset_rejected inp (ctx s) = false /\ (n1 <> 1%nat \/ n2 <> 1%nat))
  /\ (fst out = Ok None
      <-> offset_rejected inp (ctx s) = false /\ n1 = 1%nat /\ n2 = 1%nat)
  /\ (fst out = Ok None ->
      log (snd out) = log s ++ map Report cluster_reports
                            ++ [CalcFunction "create_combined_imp_info_cf"])
  /\ (fst out <> Ok None ->
      ctx (snd out) = ctx s /\ log (snd out) = log s ++ map Report cluster_reports).
Proof.
  cbv zeta. rewrite create_big_cluster_cases. cbv zeta.
  fold (offset_rejected inp (ctx s)).
  destruct (offset_rejected inp (ctx s)); cbn [fst snd ctx log].
  { split; [eauto |]. intuition (discriminate || congruence). }
  destruct (Nat.eqb_spec (length (get_zimp (impurity_info (imp1 (ctx s))))) 1) as [H1 | H1];
    destruct (Nat.eqb_spec (length (get_zimp (impurity_info (imp2 (ctx s))))) 1) as [H2 | H2];
    cbn [negb orb fst snd ctx log]; (split; [eauto |]);
    rewrite <- ?app_assoc; intuition (discriminate || congruence).
Qed.








End Workflow.

(** *** The steps on a small concrete workflow.

    Impurity infos are pairs of a layer index and a list of impurity
    charges; the combined cluster keeps the first info and records the
    offset index as kickout information. *)
Module Example.

Definition ImpInfo : Type := Z * list Z.

Definition combine (_ : unit) (i1 i2 : ImpInfo) (o : offset_dict) : ImpInfo * Z :=
  ((fst i1, snd i1 ++ snd i2), index o).

Definition imp (layer nspin : Z) : imp_node ImpInfo unit :=
  mkImp ImpInfo unit (layer, [23]) nspin tt.

Definition context0 (layer1 layer2 nspin1 nspin2 : Z) (scf_ok : bool)
  : context unit ImpInfo Z unit :=
  mkCtx unit ImpInfo Z unit (imp layer1 nspin1) (imp layer2 nspin2) tt
        None (Some 1) None {[ "jij_run" := true ]} false
        (Some (mkProc scf_ok "kkrimp scf combined imps")) None.

Definition state0 (layer1 layer2 nspin1 nspin2 : Z) (scf_ok : bool)
  : state (context unit ImpInfo Z unit) :=
  mkState (context0 layer1 layer2 nspin1 nspin2 scf_ok) [].

Definition big_cluster (idx : Z) :=
  create_big_cluster unit ImpInfo Z unit fst snd combine (mkInputs (mkOffset idx None)).

Definition big_potential :=
  create_big_potential unit ImpInfo Z unit (fun _ _ _ _ => tt).

Definition jij_block :=
  outline_jij unit ImpInfo Z unit unit (fun _ => mkProc true "KKRimp_Jij")
              (fun _ => tt) (fun _ => "KKRimp_Jij").

End Example.

Example big_cluster_same_layer_index_0 :
  fst (Example.big_cluster 0 (Example.state0 3 3 2 2 true))
  = Ok (Some ERROR_INPLANE_NEIGHBOR_TOO_SMALL).
Proof. reflexivity. Qed.

Example big_cluster_other_layer_index_0 :
  fst (Example.big_cluster 0 (Example.state0 3 4 2 2 true)) = Ok None.
Proof. reflexivity. Qed.

Example big_cluster_negative_index :
  fst (Example.big_cluster (-1) (Example.state0 3 4 2 2 true))
  = Ok (Some ERROR_INPLANE_NEIGHBOR_TOO_SMALL).
Proof. reflexivity. Qed.

Example big_potential_nspin_1_2 :
  fst (Example.big_potential (Example.state0 3 4 1 2 true))
  = Ok (Some ERROR_INCONSISTENT_NSPIN_VALUES).
Proof. reflexivity. Qed.

Example jij_block_scf_ok :
  submissions (log (snd (Example.jij_block (Example.state0 3 4 2 2 true))))
  = [Submit "KKRimp_Jij"].
Proof. reflexivity. Qed.

Example jij_block_scf_failed :
  submissions (log (snd (Example.jij_block (Example.state0 3 4 2 2 false)))) = [].
Proof. reflexivity. Qed.

Lemma create_big_cluster_offset_check_witness :
  let s := Example.state0 3 3 2 2 true in
  let s' := Example.state0 3 4 2 2 true in
  (fst (Example.big_cluster 0 s) = Ok (Some ERROR_INPLANE_NEIGHBOR_TOO_SMALL)
   /\ ctx (snd (Example.big_cluster 0 s)) = ctx s)
  /\ (fst (Example.big_cluster 0 s') = Ok None
      /\ imp_info_combined _ _ _ _ (ctx (snd (Example.big_cluster 0 s')))
         = Some (3, [23; 23])).
Proof.
  intros s s'. split.
  - destruct (create_big_cluster_offset_check unit Example.ImpInfo Z unit fst snd
                Example.combine (mkInputs (mkOffset 0 None)) s) as (Hiff & Hsame & _).
    assert (Hrej : fst (Example.big_cluster 0 s)
                   = Ok (Some ERROR_INPLANE_NEIGHBOR_TOO_SMALL)).
    { apply Hiff. right. split; reflexivity. }
    split; [exact Hrej | exact (proj1 (Hsame Hrej))].
  - destruct (create_big_cluster_offset_check unit Example.ImpInfo Z unit fst snd
                Example.combine (mkInputs (mkOffset 0 None)) s') as (_ & _ & Hgo).
    destruct Hgo as (Hret & Hinfo & _);
      [reflexivity | unfold same_layer; cbn; lia | reflexivity | reflexivity |].
    split; [exact Hret | exact Hinfo].
Defined.

Lemma create_big_potential_nspin_check_witness :
  let s := Example.state0 3 4 1 2 true in
  Example.big_potential s = (Ok (Some ERROR_INCONSISTENT_NSPIN_VALUES), s).
Proof.
  intros s.
  refine (proj1 (create_big_potential_nspin_check unit Example.ImpInfo Z unit
                   (fun _ _ _ _ => tt) s 1 eq_refl) _).
  cbn. lia.
Defined.

Lemma jij_needs_finished_scf_witness :
  let s := Example.state0 3 4 2 2 false in
  fst (Example.jij_block s) = Ok None
  /\ submissions (log (snd (Example.jij_block s))) = submissions (log s).
Proof.
  intros s.
  destruct (jij_needs_finished_scf unit Example.ImpInfo Z unit unit
              (fun _ => mkProc true "KKRimp_Jij") (fun _ => tt)
              (fun _ => "KKRimp_Jij") s) as (Hskip & _ & _).
  destruct (Hskip (mkProc false "kkrimp scf combined imps") eq_refl eq_refl)
    as (_ & _ & _ & Hret & _ & Hsub).
  split; [exact Hret | exact Hsub].
Defined.

Example big_cluster_two_charges :
  let two := mkImp Example.ImpInfo unit (3, [23; 29]) 2 tt in
  let c := mkCtx unit Example.ImpInfo Z unit two (Example.imp 4 2) tt
                 None None None ∅ false None None in
  fst (Example.big_cluster 1 (mkState c []))
  = Ok (Some ERROR_INPUT_NOT_SINGLE_IMP_CALC).
Proof. reflexivity. Qed.

Lemma create_big_cluster_single_imp_check_witness :
  let two := mkImp Example.ImpInfo unit (3, [23; 29]) 2 tt in
  let c := mkCtx unit Example.ImpInfo Z unit two (Example.imp 4 2) tt
                 None None None ∅ false None None in
  let s := mkState c [] in
  let s' := Example.state0 3 4 2 2 true in
  (fst (Example.big_cluster 1 s) = Ok (Some ERROR_INPUT_NOT_SINGLE_IMP_CALC)
   /\ ctx (snd (Example.big_cluster 1 s)) = c)
  /\ (fst (Example.big_cluster 1 s') = Ok None
      /\ log (snd (Example.big_cluster 1 s'))
         = map Report cluster_reports ++ [CalcFunction "create_combined_imp_info_cf"]).
Proof.
  intros two c s s'. split.
  - destruct (create_big_cluster_single_imp_check unit Example.ImpInfo Z unit fst snd
                Example.combine (mkInputs (mkOffset 1 None)) s)
      as (_ & Hsingle & _ & _ & Hstop).
    assert (Hret : fst (Example.big_cluster 1 s)
                   = Ok (Some ERROR_INPUT_NOT_SINGLE_IMP_CALC)).
    { apply Hsingle. split; [reflexivity | left; cbn; lia]. }
    split; [exact Hret |].
    refine (proj1 (Hstop _)). unfold Example.big_cluster in Hret. rewrite Hret. discriminate.
  - destruct (create_big_cluster_single_imp_check unit Example.ImpInfo Z unit fst snd
                Example.combine (mkInputs (mkOffset 1 None)) s')
      as (_ & _ & Hgo & Hlog & _).
    assert (Hret : fst (Example.big_cluster 1 s') = Ok None).
    { apply Hgo. repeat split; reflexivity. }
    split; [exact Hret | exact (Hlog Hret)].
Defined.


(** *** [parse_Jij]: combining the three orientation runs.

    Floating-point numbers are idealised as rationals: every step of the
    reduction is a copy, one addition and one product by [0.5]. *)
Section ParseJij.
Local Open Scope nat_scope.

(** [get_Ry2eV()] of masci_tools *)
Variable Ry2eV : Q.
(** [np.sqrt] *)
Variable np_sqrt : Q -> Q.

(** [jijdata.reshape(3, natom, natom, 3, 3)] of the flat table, row-major:
    [jij_reshape[iiter, i, j, k, l]]. *)
Definition reshape_index (natom iiter i j k l : nat) : nat :=
  (((iiter * natom + i) * natom + j) * 3 + k) * 3 + l.

Definition jij_reshape (jijdata : list Q) (natom iiter i j k l : nat) : Q :=
  nth (reshape_index natom iiter i j k l) jijdata 0%Q.

(** A dense [(natom, natom, 3, 3)] array of floats, keyed by its index
    tuple; [np.zeros] is the empty map read with default [0]. All writes
    and reads of [parse_Jij] are in range. *)
Definition idx4 : Type := nat * nat * nat * nat.

Definition aget (a : gmap idx4 Q) (ix : idx4) : Q := default 0%Q (a !! ix).

Definition np_zeros : gmap idx4 Q := ∅.

(** Body of [for iiter in range(3)] for the pair [(iatom, jatom)]. *)
Definition combine_iter (r : nat -> nat -> nat -> nat -> nat -> Q)
    (iatom jatom : nat) (a : gmap idx4 Q) (iiter : nat) : gmap idx4 Q :=
  if (iiter =? 0) then
    let a := <[(iatom, jatom, 0, 0) := r iiter iatom jatom 0 0]> a in
    let a := <[(iatom, jatom, 0, 1) := r iiter iatom jatom 0 1]> a in
    let a := <[(iatom, jatom, 1, 0) := r iiter iatom jatom 1 0]> a in
    <[(iatom, jatom, 1, 1) := r iiter iatom jatom 1 1]> a
  else if (iiter =? 1) then
    let a := <[(iatom, jatom, 1, 2) := r iiter iatom jatom 1 2]> a in
    let a := <[(iatom, jatom, 2, 1) := r iiter iatom jatom 2 1]> a in
    <[(iatom, jatom, 2, 2) := r iiter iatom jatom 2 2]> a
  else
    let a := <[(iatom, jatom, 0, 2) := r iiter iatom jatom 0 2]> a in
    let a := <[(iatom, jatom, 2, 0) := r iiter iatom jatom 2 0]> a in
    let a := <[(iatom, jatom, 2, 2) :=
                 Qplus (aget a (iatom, jatom, 2, 2)) (r iiter iatom jatom 2 2)]> a in
    <[(iatom, jatom, 2, 2) := Qmult (aget a (iatom, jatom, 2, 2)) (1 # 2)%Q]> a.

(** [for iiter in range(3)] *)
Definition combine_pair (r : nat -> nat -> nat -> nat -> nat -> Q)
    (iatom : nat) (a : gmap idx4 Q) (jatom : nat) : gmap idx4 Q :=
  fold_left (combine_iter r iatom jatom) (seq 0 3) a.

(** [for jatom in range(natom)[iatom+1:]] *)
Definition combine_row (r : nat -> nat -> nat -> nat -> nat -> Q)
    (natom : nat) (a : gmap idx4 Q) (iatom : nat) : gmap idx4 Q :=
  fold_left (combine_pair r iatom) (seq (iatom + 1) (natom - (iatom + 1))) a.

(** [jij_combined_iter] after [for iatom in range(natom-1)] *)
Definition jij_combined_iter (r : nat -> nat -> nat -> nat -> nat -> Q)
    (natom : nat) : gmap idx4 Q :=
  fold_left (combine_row r natom) (seq 0 (natom - 1)) np_zeros.

(** [jij_combined_iter *= -1.*Ry2eV*1000] *)
Definition to_meV (a : gmap idx4 Q) : gmap idx4 Q :=
  (fun x => x * ((-1 * Ry2eV) * 1000))%Q <$> a.

(** [jij_trace[i, j]] *)
Definition jij_trace (c : gmap idx4 Q) (i j : nat) : Q :=
  Qdiv (Qplus (Qplus (aget c (i, j, 0, 0)) (aget c (i, j, 1, 1))) (aget c (i, j, 2, 2))) 3%Q.

(** [Dij_vec[d, i, j]] *)
Definition Dij_vec (c : gmap idx4 Q) (d i j : nat) : Q :=
  match d with
  | O => Qminus (aget c (i, j, 1, 2)) (aget c (i, j, 2, 1))
  | S O => Qminus (aget c (i, j, 2, 0)) (aget c (i, j, 0, 2))
  | _ => Qminus (aget c (i, j, 0, 1)) (aget c (i, j, 1, 0))
  end.

(** One row of [plotdata]: [[rx, ry, rz, J, D, Dx, Dy, Dz]]. *)
Record jij_row : Type := mkRow {
  row_i : nat; row_j : nat;
  rdiff : list Q;
  row_J : Q; row_D : Q; row_Dx : Q; row_Dy : Q; row_Dz : Q
}.

(** [pos[jatom] - pos[iatom]] on the first three columns of [imp_cls] *)
Definition pos_diff (pos : list (list Q)) (i j : nat) : list Q :=
  map (fun k => Qminus (nth k (nth j pos []) 0%Q) (nth k (nth i pos []) 0%Q)) (seq 0 3).

(** The table loop: rows only for pairs with both atoms in [Vpos]. *)
Definition plotdata (c : gmap idx4 Q) (natom : nat) (Vpos : list nat)
    (pos : list (list Q)) : list jij_row :=
  flat_map (fun iatom =>
    flat_map (fun jatom =>
      if negb (iatom =? jatom)
         && bool_decide (iatom ∈ Vpos) && bool_decide (jatom ∈ Vpos)
      then
        let J := jij_trace c iatom jatom in
        let Dx := Dij_vec c 0 iatom jatom in
        let Dy := Dij_vec c 1 iatom jatom in
        let Dz := Dij_vec c 2 iatom jatom in
        let D := np_sqrt (Dx * Dx + Dy * Dy + Dz * Dz)%Q in
        [mkRow iatom jatom (pos_diff pos iatom jatom) J D Dx Dy Dz]
      else [])
      (seq (iatom + 1) (natom - (iatom + 1))))
    (seq 0 (natom - 1)).

(** The numeric part of [parse_Jij]: from the flat table to [plotdata]. *)
Definition parse_Jij (jijdata : list Q) (natom : nat) (Vpos : list nat)
    (pos : list (list Q)) : list jij_row :=
  plotdata (to_meV (jij_combined_iter (jij_reshape jijdata natom) natom))
           natom Vpos pos.

(** *** Properties of the reduction *)

(** The component [(k, l)] of the combined tensor of the pair [(i, j)], as
    the rule of [parse_Jij] picks it from the three runs. *)
Definition combined_value (r : nat -> nat -> nat -> nat -> nat -> Q)
    (i j k l : nat) : Q :=
  match k, l with
  | 2, 2 => Qmult (Qplus (r 1 i j 2 2) (r 2 i j 2 2)) (1 # 2)%Q
  | 1, 2 | 2, 1 => r 1 i j k l
  | 0, 2 | 2, 0 => r 2 i j k l
  | _, _ => r 0 i j k l
  end.

Lemma combine_pair_same r i j a k l :
  k < 3 -> l < 3 ->
  aget (combine_pair r i a j) (i, j, k, l) = combined_value r i j k l.
Proof.
  intros Hk Hl. unfold combine_pair, combine_iter, aget. cbn [seq fold_left Nat.eqb].
  destruct k as [| [| [| k]]]; [| | | lia];
    destruct l as [| [| [| l]]]; try lia; cbn [combined_value];
    repeat (rewrite lookup_insert_eq || (rewrite lookup_insert_ne by congruence));
    cbn [default]; reflexivity.
Qed.

Lemma combine_pair_other r i j a i' j' k l :
  (i', j') <> (i, j) ->
  aget (combine_pair r i a j) (i', j', k, l) = aget a (i', j', k, l).
Proof.
  intros Hne. unfold combine_pair, combine_iter, aget. cbn [seq fold_left Nat.eqb].
  repeat (rewrite lookup_insert_ne by congruence). reflexivity.
Qed.

(** The loop over [jatom]: the pairs of the row are set, the rest is kept. *)
Lemma combine_pairs_get r i js : forall a i' j' k l,
  k < 3 -> l < 3 ->
  aget (fold_left (combine_pair r i) js a) (i', j', k, l)
  = if bool_decide (i' = i /\ j' ∈ js) then combined_value r i' j' k l
    else aget a (i', j', k, l).
Proof.
  induction js as [| j js IH]; intros a i' j' k l Hk Hl; cbn [fold_left].
  - rewrite bool_decide_eq_false_2; [reflexivity |].
    intros [_ H]. inversion H.
  - rewrite IH by assumption.
    destruct (decide (i' = i /\ j' ∈ js)) as [Hin | Hnin].
    + rewrite !bool_decide_eq_true_2; [reflexivity | | assumption].
      destruct Hin; split; [assumption | by apply list_elem_of_further].
    + rewrite (bool_decide_eq_false_2 _ Hnin).
      destruct (decide (i' = i /\ j' = j)) as [[-> ->] | Hne].
      * rewrite bool_decide_eq_true_2 by (split; [reflexivity | apply list_elem_of_here]).
        apply combine_pair_same; assumption.
      * rewrite bool_decide_eq_false_2.
        -- apply combine_pair_other. intros [= -> ->]. apply Hne. auto.
        -- intros [-> Hj]. apply elem_of_cons in Hj as [-> | Hj]; [apply Hne | apply Hnin]; auto.
Qed.

(** The loop over [iatom]. *)
Lemma combine_rows_get r natom is_ : forall a i' j' k l,
  k < 3 -> l < 3 ->
  aget (fold_left (combine_row r natom) is_ a) (i', j', k, l)
  = if bool_decide (i' ∈ is_ /\ i' < j' < natom) then combined_value r i' j' k l
    else aget a (i', j', k, l).
Proof.
  induction is_ as [| i is_ IH]; intros a i' j' k l Hk Hl; cbn [fold_left].
  - rewrite bool_decide_eq_false_2; [reflexivity |].
    intros [H _]. inversion H.
  - rewrite IH by assumption.
    destruct (decide (i' ∈ is_ /\ i' < j' < natom)) as [Hin | Hnin].
    + rewrite !bool_decide_eq_true_2; [reflexivity | | assumption].
      destruct Hin; split; [by apply list_elem_of_further | assumption].
    + rewrite (bool_decide_eq_false_2 _ Hnin).
      unfold combine_row. rewrite combine_pairs_get by assumption.
      destruct (decide (i' = i /\ i' < j' < natom)) as [[-> Hj] | Hne].
      * rewrite !bool_decide_eq_true_2; [reflexivity | |].
        -- split; [apply list_elem_of_here | assumption].
        -- split; [reflexivity |]. apply list_elem_of_In, in_seq. lia.
      * rewrite !bool_decide_eq_false_2; [reflexivity | |].
        -- intros [Hi Hj]. apply elem_of_cons in Hi as [-> | Hi]; [apply Hne | apply Hnin]; auto.
        -- intros [-> Hj]. apply list_elem_of_In, in_seq in Hj. apply Hne. split; [reflexivity | lia].
Qed.

Lemma jij_combined_iter_get r natom i j k l :
  i < j < natom -> k < 3 -> l < 3 ->
  aget (jij_combined_iter r natom) (i, j, k, l) = combined_value r i j k l.
Proof.
  intros Hij Hk Hl. unfold jij_combined_iter.
  rewrite combine_rows_get by assumption.
  rewrite bool_decide_eq_true_2; [reflexivity |].
  split; [| assumption]. apply list_elem_of_In, in_seq. lia.
Qed.

(** A tensor component multiplied by -1000 times the Rydberg-to-eV
    constant. *)
Definition meV (x : Q) : Q := (x * (-1000 * Ry2eV))%Q.

(** The unit conversion acts on every component, also on those that were
    never written. *)
Lemma to_meV_get (a : gmap idx4 Q) (ix : idx4) :
  (aget (to_meV a) ix == aget a ix * (-1000 * Ry2eV))%Q.
Proof.
  unfold aget, to_meV. rewrite lookup_fmap.
  destruct (a !! ix) as [x |]; cbn; ring.
Qed.

Lemma plotdata_row (c : gmap idx4 Q) natom Vpos pos i j :
  i < j < natom -> i ∈ Vpos -> j ∈ Vpos ->
  In (mkRow i j (pos_diff pos i j) (jij_trace c i j)
        (np_sqrt (Qplus (Qplus (Qmult (Dij_vec c 0 i j) (Dij_vec c 0 i j))
                               (Qmult (Dij_vec c 1 i j) (Dij_vec c 1 i j)))
                        (Qmult (Dij_vec c 2 i j) (Dij_vec c 2 i j))))
        (Dij_vec c 0 i j) (Dij_vec c 1 i j) (Dij_vec c 2 i j))
     (plotdata c natom Vpos pos).
Proof.
  intros Hij Hi Hj. unfold plotdata.
  apply in_flat_map. exists i. split; [apply in_seq; lia |].
  apply in_flat_map. exists j. split; [apply in_seq; lia |].
  rewrite !bool_decide_eq_true_2 by assumption.
  replace (i =? j) with false by (symmetry; apply Nat.eqb_neq; lia).
  cbn. left. reflexivity.
Qed.

(** C1. For a raw table reshaped to (3, natom, natom, 3, 3) and a pair
    [i < j], the combined tensor takes xx, xy, yx, yy from iteration 0,
    yz and zy from iteration 1, xz and zx from iteration 2, and its zz
    component is (zz of iteration 1 + zz of iteration 2)/2. *)
Theorem parse_Jij_component_selection (jijdata : list Q) (natom i j : nat) :
  i < j < natom ->
  let r := jij_reshape jijdata natom in
  let T := jij_combined_iter r natom in
  let zz1 := r 1 i j 2 2 in
  let zz2 := r 2 i j 2 2 in
  let zz := aget T (i, j, 2, 2) in
  (aget T (i, j, 0, 0) = r 0 i j 0 0 /\ aget T (i, j, 0, 1) = r 0 i j 0 1
   /\ aget T (i, j, 1, 0) = r 0 i j 1 0 /\ aget T (i, j, 1, 1) = r 0 i j 1 1)
  /\ (aget T (i, j, 1, 2) = r 1 i j 1 2 /\ aget T (i, j, 2, 1) = r 1 i j 2 1)
  /\ (aget T (i, j, 0, 2) = r 2 i j 0 2 /\ aget T (i, j, 2, 0) = r 2 i j 2 0)
  /\ zz = ((zz1 + zz2) / 2)%Q.
Proof.
  intros Hij r T zz1 zz2 zz. subst T zz1 zz2 zz.
  rewrite !jij_combined_iter_get by (assumption || lia).
  cbn [combined_value]. repeat split; reflexivity.
Qed.

(** The coupling and the Dzyaloshinskii-Moriya vector of the converted
    array in terms of its components. *)
Lemma coupling_and_DM_of_tensor (T : gmap idx4 Q) (i j : nat) :
  let c := to_meV T in
  let t := fun k l => meV (aget T (i, j, k, l)) in
  let xx := t 0 0 in let xy := t 0 1 in let xz := t 0 2 in
  let yx := t 1 0 in let yy := t 1 1 in let yz := t 1 2 in
  let zx := t 2 0 in let zy := t 2 1 in let zz := t 2 2 in
  (jij_trace c i j == (xx + yy + zz) / 3)%Q
  /\ (Dij_vec c 0 i j == yz - zy)%Q
  /\ (Dij_vec c 1 i j == zx - xz)%Q
  /\ (Dij_vec c 2 i j == xy - yx)%Q.
Proof.
  cbv zeta. unfold jij_trace, Dij_vec, meV. rewrite !to_meV_get. repeat split; reflexivity.
Qed.

(** Every row of the table belongs to a pair [i < j < natom] with both
    atoms among the impurity positions, and holds the position difference,
    the coupling, the Dzyaloshinskii-Moriya vector and its length for that
    pair; in particular there is no row when there are fewer than two
    atoms. *)
Lemma plotdata_rows_sound (c : gmap idx4 Q) (natom : nat) (Vpos : list nat)
    (pos : list (list Q)) (row : jij_row) :
  In row (plotdata c natom Vpos pos) ->
  let i := row_i row in
  let j := row_j row in
  i < j < natom /\ 2 <= natom /\ i ∈ Vpos /\ j ∈ Vpos
  /\ rdiff row = pos_diff pos i j
  /\ row_J row = jij_trace c i j
  /\ row_Dx row = Dij_vec c 0 i j
  /\ row_Dy row = Dij_vec c 1 i j
  /\ row_Dz row = Dij_vec c 2 i j
  /\ row_D row = np_sqrt (Qplus (Qplus (Qmult (row_Dx row) (row_Dx row))
                                       (Qmult (row_Dy row) (row_Dy row)))
                                (Qmult (row_Dz row) (row_Dz row))).
Proof.
  unfold plotdata. intros Hin.
  apply in_flat_map in Hin as (i & Hi & Hin).
  apply in_flat_map in Hin as (j & Hj & Hin).
  apply in_seq in Hi. apply in_seq in Hj.
  destruct (negb (i =? j)); cbn [andb] in Hin; [| inversion Hin].
  destruct (bool_decide (i ∈ Vpos)) eqn:HVi; cbn [andb] in Hin; [| inversion Hin].
  destruct (bool_decide (j ∈ Vpos)) eqn:HVj; [| inversion Hin].
  apply bool_decide_eq_true_1 in HVi. apply bool_decide_eq_true_1 in HVj.
  destruct Hin as [<- | []]. cbn.
  repeat split; auto; lia.
Qed.

(** C2 as the specification words it: every pair [i < j] of the table
    has a row in what [parse_Jij] reports. *)
Definition every_pair_reported (jijdata : list Q) (natom : nat) (Vpos : list nat)
    (pos : list (list Q)) : Prop :=
  forall i j, i < j < natom ->
    exists row, In row (parse_Jij jijdata natom Vpos pos)
      /\ row_i row = i /\ row_j row = j.

(** C2, amended. [parse_Jij] reports a pair [i < j] exactly when both
    atoms are among the impurity positions [Vpos]. The row of such a pair
    has as scalar coupling the trace of the combined tensor divided by 3
    after every component has been multiplied by -1000 times Ry2eV, and as
    Dzyaloshinskii-Moriya vector (yz-zy, zx-xz, xy-yx) of the converted
    tensor; every row reported for the pair has these values. *)
Theorem parse_Jij_reports_impurity_pairs (jijdata : list Q) (natom i j : nat)
    (Vpos : list nat) (pos : list (list Q)) :
  i < j < natom ->
  let T := jij_combined_iter (jij_reshape jijdata natom) natom in
  let rows := parse_Jij jijdata natom Vpos pos in
  let t := fun k l => meV (aget T (i, j, k, l)) in
  let xx := t 0 0 in let xy := t 0 1 in let xz := t 0 2 in
  let yx := t 1 0 in let yy := t 1 1 in let yz := t 1 2 in
  let zx := t 2 0 in let zy := t 2 1 in let zz := t 2 2 in
  let reported := fun row : jij_row =>
    (row_J row == (xx + yy + zz) / 3)%Q
    /\ (row_Dx row == yz - zy)%Q
    /\ (row_Dy row == zx - xz)%Q
    /\ (row_Dz row == xy - yx)%Q in
  (i ∈ Vpos -> j ∈ Vpos ->
   exists row, In row rows /\ row_i row = i /\ row_j row = j /\ reported row)
  /\ (forall row, In row rows -> row_i row = i -> row_j row = j ->
      i ∈ Vpos /\ j ∈ Vpos /\ reported row).
Proof.
  intros Hij T rows t. cbv zeta. subst rows t.
  destruct (coupling_and_DM_of_tensor T i j) as (HJ & Hx & Hy & Hz).
  cbv zeta in HJ, Hx, Hy, Hz. split.
  - intros Hi Hj. eexists. split.
    + unfold parse_Jij. apply plotdata_row; eassumption.
    + cbn [row_i row_j row_J row_Dx row_Dy row_Dz]. auto 10.
  - intros row Hin Hri Hrj. unfold parse_Jij in Hin.
    destruct (plotdata_rows_sound _ _ _ _ _ Hin)
      as (_ & _ & HVi & HVj & _ & HrJ & HrDx & HrDy & HrDz & _).
    rewrite Hri, Hrj in *. rewrite HrJ, HrDx, HrDy, HrDz. auto 10.
Qed.

(** *** More on the reduction and the table *)

(** Below and on the diagonal the combined tensor is never written: for
    a pair that is not [i < j < natom] all nine components are the zeros
    of [np.zeros], and so are the coupling and the Dzyaloshinskii-Moriya
    vector computed from them. *)
Theorem jij_combined_iter_upper_triangle (jijdata : list Q) (natom i j : nat) :
  ~ (i < j < natom) ->
  let T := jij_combined_iter (jij_reshape jijdata natom) natom in
  (forall k l, k < 3 -> l < 3 -> aget T (i, j, k, l) = 0%Q)
  /\ (jij_trace (to_meV T) i j == 0)%Q
  /\ (forall d, Dij_vec (to_meV T) d i j == 0)%Q.
Proof.
  intros Hij T.
  assert (Hzero : forall k l, k < 3 -> l < 3 -> aget T (i, j, k, l) = 0%Q).
  { intros k l Hk Hl. subst T. unfold jij_combined_iter.
    rewrite combine_rows_get by assumption.
    rewrite bool_decide_eq_false_2 by (intros [_ H]; exact (Hij H)).
    reflexivity. }
  split; [exact Hzero | split].
  - unfold jij_trace. rewrite !to_meV_get, !Hzero by lia. field.
  - intros d. unfold Dij_vec. destruct d as [| [| d]];
      rewrite !to_meV_get, !Hzero by lia; ring.
Qed.



End ParseJij.

(** A two-atom table: entry [n] of the flat table is the number [n]. *)
Definition jijdata2 : list Q :=
  map (fun n => inject_Z (Z.of_nat n)) (seq 0 108).

Example jijdata2_combined :
  let T := jij_combined_iter (jij_reshape jijdata2 2) 2 in
  map (aget T) [(0, 1, 0, 0); (0, 1, 0, 1); (0, 1, 0, 2);
                (0, 1, 1, 0); (0, 1, 1, 1); (0, 1, 1, 2);
                (0, 1, 2, 0); (0, 1, 2, 1)]%nat
  = map inject_Z [9; 10; 83; 12; 13; 50; 87; 52]
  /\ aget T (0, 1, 2, 2)%nat = Qmult (Qplus (inject_Z 53) (inject_Z 89)) (1 # 2)
  /\ aget T (1, 0, 0, 0)%nat = 0%Q.
Proof. vm_compute. auto. Qed.

Lemma parse_Jij_component_selection_witness :
  let T := jij_combined_iter (jij_reshape jijdata2 2) 2 in
  let zz1 := jij_reshape jijdata2 2 1 0 1 2 2 in
  let zz2 := jij_reshape jijdata2 2 2 0 1 2 2 in
  let zz := aget T (0, 1, 2, 2)%nat in
  aget T (0, 1, 0, 1)%nat = jij_reshape jijdata2 2 0 0 1 0 1
  /\ zz = ((zz1 + zz2) / 2)%Q.
Proof.
  intros T.
  destruct (parse_Jij_component_selection jijdata2 2 0 1 ltac:(lia))
    as ((_ & Hxy & _) & _ & _ & Hzz).
  split; [exact Hxy | exact Hzz].
Defined.

(** With atom 1 a host atom the pair (0, 1) is not reported. *)
Example parse_Jij_host_atom :
  parse_Jij 1 (fun x => x) jijdata2 2 [0]%nat [[0; 0; 0]; [1; 0; 0]]%Q = [].
Proof. vm_compute. reflexivity. Qed.

Lemma parse_Jij_host_pair_not_reported :
  ~ every_pair_reported 1 (fun x => x) jijdata2 2 [0]%nat [[0; 0; 0]; [1; 0; 0]]%Q.
Proof.
  intros H. destruct (H 0%nat 1%nat ltac:(lia)) as (row & Hin & _).
  rewrite parse_Jij_host_atom in Hin. exact Hin.
Qed.

Lemma parse_Jij_reports_impurity_pairs_witness :
  let T := jij_combined_iter (jij_reshape jijdata2 2) 2 in
  let pos := [[0; 0; 0]; [1; 0; 0]]%Q in
  let xx := meV 1 (aget T (0, 1, 0, 0)%nat) in
  let yy := meV 1 (aget T (0, 1, 1, 1)%nat) in
  let zz := meV 1 (aget T (0, 1, 2, 2)%nat) in
  let xy := meV 1 (aget T (0, 1, 0, 1)%nat) in
  let yx := meV 1 (aget T (0, 1, 1, 0)%nat) in
  let yz := meV 1 (aget T (0, 1, 1, 2)%nat) in
  let zy := meV 1 (aget T (0, 1, 2, 1)%nat) in
  let zx := meV 1 (aget T (0, 1, 2, 0)%nat) in
  let xz := meV 1 (aget T (0, 1, 0, 2)%nat) in
  (exists row, In row (parse_Jij 1 (fun x => x) jijdata2 2 [0; 1]%nat pos)
     /\ row_i row = 0%nat /\ row_j row = 1%nat
     /\ (row_J row == (xx + yy + zz) / 3)%Q
     /\ (row_Dx row == yz - zy)%Q
     /\ (row_Dy row == zx - xz)%Q
     /\ (row_Dz row == xy - yx)%Q)
  /\ (forall row, In row (parse_Jij 1 (fun x => x) jijdata2 2 [0]%nat pos) ->
      ~ (row_i row = 0%nat /\ row_j row = 1%nat)).
Proof.
  intros T pos xx yy zz xy yx yz zy zx xz. split.
  - destruct (parse_Jij_reports_impurity_pairs 1 (fun x => x) jijdata2 2 0 1
                [0; 1]%nat pos ltac:(lia)) as (Hrow & _).
    destruct Hrow as (row & Hin & Hi & Hj & HJ & HDx & HDy & HDz).
    + apply list_elem_of_here.
    + apply list_elem_of_further, list_elem_of_here.
    + exists row. repeat split; assumption.
  - intros row Hin [Hi Hj].
    destruct (parse_Jij_reports_impurity_pairs 1 (fun x => x) jijdata2 2 0 1
                [0]%nat pos ltac:(lia)) as (_ & Honly).
    destruct (Honly row Hin Hi Hj) as (_ & H1 & _).
    apply list_elem_of_singleton in H1. discriminate H1.
Defined.

Lemma jij_combined_iter_upper_triangle_witness :
  let T := jij_combined_iter (jij_reshape jijdata2 2) 2 in
  aget T (1, 0, 2, 1)%nat = 0%Q /\ aget T (1, 1, 0, 0)%nat = 0%Q.
Proof.
  intros T. split.
  - exact (proj1 (jij_combined_iter_upper_triangle 1 jijdata2 2 1 0 ltac:(lia))
                 2%nat 1%nat ltac:(lia) ltac:(lia)).
  - exact (proj1 (jij_combined_iter_upper_triangle 1 jijdata2 2 1 1 ltac:(lia))
                 0%nat 0%nat ltac:(lia) ltac:(lia)).
Defined.


End CombineImps.

(** ** combine_imps_wc: parameters, host Green function and input checks
       (workflows/_combine_imps.py) *)
Module CombineImpsSteps.
Import Wc.
Local Open Scope wc_scope.

(** *** Python dictionaries: insertion-ordered association lists *)
Section Dict.
Context {V : Type}.

(** [key in d.keys()] *)
Definition has_key (d : list (string * V)) (key : string) : bool :=
  existsb (fun kv => String.eqb (fst kv) key) d.

(** [d.get(key)], [None] when the key is missing *)
Fixpoint dict_get (d : list (string * V)) (key : string) : option V :=
  match d with
  | [] => None
  | (k, v) :: d' => if String.eqb k key then Some v else dict_get d' key
  end.

(** [d[key] = val]: an existing key keeps its place, a new one goes last *)
Fixpoint dict_set (d : list (string * V)) (key : string) (val : V) : list (string * V) :=
  match d with
  | [] => [(key, val)]
  | (k, v) :: d' =>
      if String.eqb k key then (k, val) :: d' else (k, v) :: dict_set d' key val
  end.

(** [d.pop(key, None)] *)
Definition dict_pop (d : list (string * V)) (key : string) : list (string * V) :=
  List.filter (fun kv => negb (String.eqb (fst kv) key)) d.

End Dict.

(** A [for] loop over a list whose body is a step and carries the local
    variables [acc]. *)
Fixpoint for_each {C A B : Type} (items : list A) (body : B -> A -> wc C B) (acc : B)
  : wc C B :=
  match items with
  | [] => ret acc
  | x :: items' => acc' <- body acc x ;; for_each items' body acc'
  end.

Section Steps.

(** Values of the parameter dictionaries, compared with Python's [!=]. *)
Context {V : Type} `{EqDecision V}.
(** The remote folder of a host Green function. *)
Variable RemoteData : Type.

(** A sub-workflow in the context, as far as the steps look at it. *)
Record process_node : Type := mkProc { is_finished_ok : bool }.

(** [self.inputs], as far as these steps ask: is the port there *)
Record inputs : Type := mkInputs {
  inp_wf_parameters_overwrite : option (list (string * V));
  gf_host_remote : option RemoteData
}.

(** [self.ctx]: the attributes these steps read and write; [None] while
    an attribute has not been set. *)
Record context : Type := mkCtx {
  wf_parameters_overwrite : option (list (string * V));
  wf_parameters_flex : option (list (string * V));
  run_options : option (list (string * V));
  scf_wf_parameters : option (list (string * V));
  gf_writeout : option process_node;
  host_gf_ok : option bool
}.

Definition set_wf_parameters_flex (d : list (string * V)) (c : context) : context :=
  mkCtx (wf_parameters_overwrite c) (Some d) (run_options c) (scf_wf_parameters c)
        (gf_writeout c) (host_gf_ok c).

Definition set_run_options (d : list (string * V)) (c : context) : context :=
  mkCtx (wf_parameters_overwrite c) (wf_parameters_flex c) (Some d)
        (scf_wf_parameters c) (gf_writeout c) (host_gf_ok c).

Definition set_scf_wf_parameters (d : list (string * V)) (c : context) : context :=
  mkCtx (wf_parameters_overwrite c) (wf_parameters_flex c) (run_options c) (Some d)
        (gf_writeout c) (host_gf_ok c).

Definition set_host_gf_ok (b : bool) (c : context) : context :=
  mkCtx (wf_parameters_overwrite c) (wf_parameters_flex c) (run_options c)
        (scf_wf_parameters c) (gf_writeout c) (Some b).

(** Body of [for key, val in wf_parameters_overwrite.items()]; the local
    variable is [scf_wf_parameters]. *)
Definition overwrite_one (wf_parameters_overwrite : list (string * V))
    (scf : list (string * V)) (kv : string * V) : wc context (list (string * V)) :=
  let '(key, val) := kv in
  if has_key scf key then
    if negb (bool_decide (dict_get wf_parameters_overwrite key = dict_get scf key)) then
      let scf' := dict_set scf key val in
      report "INFO: Parameter value of {} set from {} to {}" ;;;
      ret scf'
    else ret scf
  else ret (dict_set scf key val).

(** Body of [for key, val in scf_wf_parameters.items()]; the local variable
    is [key_list]. [wf_parameters_flex] and [run_options] are the
    dictionaries of the context themselves, so they change there. *)
Definition sort_one (scf : list (string * V)) (key_list : list string)
    (kv : string * V) : wc context (list string) :=
  let '(key, val) := kv in
  flex <- ctx_attr "wf_parameters_flex" wf_parameters_flex ;;
  run <- ctx_attr "run_options" run_options ;;
  if has_key flex key || has_key run key then
    (if has_key flex key then
       match dict_get flex key with
       | Some deflt_val =>
           modify_ctx (set_wf_parameters_flex
                         (dict_set flex key (default deflt_val (dict_get scf key))))
       | None => raise (KeyError key)
       end
     else ret tt) ;;;
    (if has_key run key then
       match dict_get run key with
       | Some deflt_val =>
           modify_ctx (set_run_options
                         (dict_set run key (default deflt_val (dict_get scf key)))) ;;;
           report "INFO: Probable run option <{}> is updated here as <{}>"
       | None => raise (KeyError key)
       end
     else ret tt) ;;;
    ret (key_list ++ [key])
  else ret key_list.

(** [update_params] *)
Definition update_params (inp : inputs) : wc context unit :=
  scf <- ctx_attr "scf_wf_parameters" scf_wf_parameters ;;
  _ <- ctx_attr "wf_parameters_flex" wf_parameters_flex ;;
  _ <- ctx_attr "run_options" run_options ;;
  scf <- (match inp_wf_parameters_overwrite inp with
          | Some _ =>
              ov <- ctx_attr "wf_parameters_overwrite" wf_parameters_overwrite ;;
              for_each ov (overwrite_one ov) scf
          | None => ret scf
          end) ;;
  key_list <- for_each scf (sort_one scf) [] ;;
  let scf := fold_left dict_pop key_list scf in
  report "INFO: The wf_parameters Dict for kkr_imp_sub_wc is ready." ;;;
  modify_ctx (set_scf_wf_parameters scf).

(** [need_gf_run] *)
Definition need_gf_run (inp : inputs) : bool :=
  match gf_host_remote inp with
  | Some _ => false
  | None => true
  end.

(** Exit codes of [combine_imps_wc] are those of [CombineImps]. *)
Definition step_return : Type := option CombineImps.exit_code.

(** [check_host_gf] *)
Definition check_host_gf (inp : inputs) : wc context step_return :=
  modify_ctx (set_host_gf_ok true) ;;;
  (if need_gf_run inp then
     gf <- ctx_attr "gf_writeout" gf_writeout ;;
     if negb (is_finished_ok gf) then modify_ctx (set_host_gf_ok false) else ret tt
   else ret tt) ;;;
  ok <- ctx_attr "host_gf_ok" host_gf_ok ;;
  if negb ok then ret (Some CombineImps.ERROR_HOST_GF_CALC_FAILED) else ret None.

Ltac run_all :=
  repeat (unfold bind, ret, raise, get_ctx, modify_ctx, emit, report, ctx_attr in *;
          cbn [fst snd ctx log] in * ).

(** *** Dictionary facts *)

Lemma has_key_get (d : list (string * V)) (key : string) :
  has_key d key = match dict_get d key with Some _ => true | None => false end.
Proof.
  induction d as [| [k v] d IH]; cbn; [reflexivity |].
  destruct (String.eqb k key); cbn; [reflexivity | exact IH].
Qed.

Lemma has_key_true (d : list (string * V)) (key : string) :
  has_key d key = true <-> is_Some (dict_get d key).
Proof.
  rewrite has_key_get. destruct (dict_get d key); split; eauto; try discriminate.
  intros [x Hx]. discriminate.
Qed.

Lemma has_key_false (d : list (string * V)) (key : string) :
  has_key d key = false <-> dict_get d key = None.
Proof.
  rewrite has_key_get. destruct (dict_get d key); split; eauto; discriminate.
Qed.

Lemma dict_get_set (d : list (string * V)) (key key' : string) (val : V) :
  dict_get (dict_set d key val) key'
  = if String.eqb key key' then Some val else dict_get d key'.
Proof.
  induction d as [| [k v] d IH]; cbn.
  - destruct (String.eqb key key'); reflexivity.
  - destruct (String.eqb_spec k key) as [-> | Hk]; cbn.
    + destruct (String.eqb key key'); reflexivity.
    + rewrite IH. destruct (String.eqb_spec key key') as [-> | Hk'].
      * rewrite (proj2 (String.eqb_neq k key') Hk). reflexivity.
      * reflexivity.
Qed.

Lemma has_key_set (d : list (string * V)) (key key' : string) (val : V) :
  has_key (dict_set d key val) key' = String.eqb key key' || has_key d key'.
Proof.
  rewrite !has_key_get, dict_get_set.
  destruct (String.eqb key key'); reflexivity.
Qed.

Lemma dict_get_pop (d : list (string * V)) (key key' : string) :
  dict_get (dict_pop d key) key'
  = if String.eqb key key' then None else dict_get d key'.
Proof.
  unfold dict_pop. induction d as [| [k v] d IH]; cbn.
  - destruct (String.eqb key key'); reflexivity.
  - destruct (String.eqb_spec k key) as [-> | Hk]; cbn.
    + rewrite IH. destruct (String.eqb key key'); reflexivity.
    + rewrite IH. destruct (String.eqb_spec key key') as [-> | Hk'].
      * rewrite (proj2 (String.eqb_neq k key') Hk). reflexivity.
      * reflexivity.
Qed.

Lemma dict_get_pop_all (keys : list string) : forall (d : list (string * V)) (key : string),
  dict_get (fold_left dict_pop keys d) key
  = if bool_decide (key ∈ keys) then None else dict_get d key.
Proof.
  induction keys as [| k keys IH]; intros d key; cbn [fold_left].
  - rewrite bool_decide_eq_false_2; [reflexivity | apply not_elem_of_nil].
  - rewrite IH, dict_get_pop.
    destruct (decide (key ∈ keys)) as [Hin | Hnin].
    + rewrite !bool_decide_eq_true_2; [reflexivity | | assumption].
      by apply list_elem_of_further.
    + rewrite (bool_decide_eq_false_2 _ Hnin).
      destruct (String.eqb_spec k key) as [-> | Hk].
      * rewrite bool_decide_eq_true_2; [reflexivity | apply list_elem_of_here].
      * rewrite bool_decide_eq_false_2; [reflexivity |].
        intros Hin. apply elem_of_cons in Hin as [-> | Hin]; [apply Hk | apply Hnin]; auto.
Qed.

Lemma dict_get_app (d1 d2 : list (string * V)) (key : string) :
  dict_get (d1 ++ d2) key
  = if has_key d1 key then dict_get d1 key else dict_get d2 key.
Proof.
  induction d1 as [| [k v] d1 IH]; cbn; [reflexivity |].
  destruct (String.eqb k key); cbn; [reflexivity | exact IH].
Qed.

Lemma has_key_app (d1 d2 : list (string * V)) (key : string) :
  has_key (d1 ++ d2) key = has_key d1 key || has_key d2 key.
Proof. unfold has_key. apply existsb_app. Qed.

Lemma has_key_elem (d : list (string * V)) (key : string) :
  has_key d key = true <-> key ∈ map fst d.
Proof.
  unfold has_key. rewrite existsb_exists, list_elem_of_In, in_map_iff. split.
  - intros ([k v] & Hin & Hk). apply String.eqb_eq in Hk. cbn in Hk. subst.
    exists (key, v). auto.
  - intros ([k v] & Hk & Hin). cbn in Hk. subst. exists (key, v).
    split; [assumption | apply String.eqb_refl].
Qed.

(** *** [update_params]: what the two loops compute *)

(** The local [scf_wf_parameters] after one pass of the first loop. *)
Definition overwrite_val (ov scf : list (string * V)) (kv : string * V)
  : list (string * V) :=
  if has_key scf (fst kv) then
    if negb (bool_decide (dict_get ov (fst kv) = dict_get scf (fst kv)))
    then dict_set scf (fst kv) (snd kv) else scf
  else dict_set scf (fst kv) (snd kv).

(** A dictionary of the context after one pass of the second loop. *)
Definition take_value (scf d : list (string * V)) (key : string) : list (string * V) :=
  match dict_get d key with
  | Some deflt_val => dict_set d key (default deflt_val (dict_get scf key))
  | None => d
  end.

(** [d.get(key)] of the overwrite dictionary, else of the parameters. *)
Definition merged (ov scf : list (string * V)) (key : string) : option V :=
  match dict_get ov key with
  | Some v => Some v
  | None => dict_get scf key
  end.

Lemma overwrite_one_run (ov scf : list (string * V)) (kv : string * V)
    (s : state context) :
  exists evs, overwrite_one ov scf kv s
              = (Ok (overwrite_val ov scf kv), mkState (ctx s) (log s ++ evs)).
Proof.
  destruct kv as [key val]. unfold overwrite_one, overwrite_val. cbn [fst snd].
  destruct (has_key scf key); [destruct (negb _) |]; run_all.
  - eexists. reflexivity.
  - exists []. rewrite app_nil_r. destruct s; reflexivity.
  - exists []. rewrite app_nil_r. destruct s; reflexivity.
Qed.

Lemma for_each_overwrite (ov : list (string * V)) (items : list (string * V)) :
  forall (scf : list (string * V)) (s : state context),
  exists evs, for_each items (overwrite_one ov) scf s
              = (Ok (fold_left (overwrite_val ov) items scf),
                 mkState (ctx s) (log s ++ evs)).
Proof.
  induction items as [| kv items IH]; intros scf s; cbn [for_each fold_left].
  - exists []. rewrite app_nil_r. destruct s; reflexivity.
  - destruct (overwrite_one_run ov scf kv s) as [evs1 H1].
    unfold bind at 1. rewrite H1.
    destruct (IH (overwrite_val ov scf kv) (mkState (ctx s) (log s ++ evs1))) as [evs2 H2].
    rewrite H2. cbn [ctx log]. exists (evs1 ++ evs2). rewrite app_assoc. reflexivity.
Qed.

Lemma fold_overwrite_get (ov scf0 : list (string * V)) :
  forall (items pre scf : list (string * V)),
  ov = pre ++ items ->
  (forall k, dict_get scf k = if has_key pre k then dict_get ov k else dict_get scf0 k) ->
  forall k, dict_get (fold_left (overwrite_val ov) items scf) k = merged ov scf0 k.
Proof.
  induction items as [| [key val] items IH]; intros pre scf Hov Hinv k; cbn [fold_left].
  - rewrite app_nil_r in Hov. subst pre. rewrite Hinv. unfold merged.
    rewrite has_key_get. destruct (dict_get ov k); reflexivity.
  - apply (IH (pre ++ [(key, val)])); [rewrite <- app_assoc; exact Hov |].
    intros k'. rewrite has_key_app. cbn [has_key existsb fst]. rewrite orb_false_r.
    unfold overwrite_val. cbn [fst snd].
    assert (Hfirst : has_key pre key = false -> dict_get ov key = Some val).
    { intros Hpre. rewrite Hov, dict_get_app, Hpre. cbn. rewrite String.eqb_refl.
      reflexivity. }
    destruct (has_key pre key) eqn:Hpre.
    + (* the key has been seen: the value is already that of [ov] *)
      assert (Hsame : dict_get scf key = dict_get ov key) by (rewrite Hinv, Hpre; reflexivity).
      assert (Hhas : has_key scf key = true).
      { apply has_key_true. rewrite Hsame. apply has_key_true.
        rewrite Hov, has_key_app, Hpre. reflexivity. }
      rewrite Hhas, bool_decide_eq_true_2 by congruence. cbn [negb].
      rewrite Hinv. destruct (String.eqb_spec key k') as [<- | Hne].
      * rewrite Hpre. reflexivity.
      * rewrite orb_false_r. reflexivity.
    + specialize (Hfirst eq_refl).
      assert (Hres : forall k',
                dict_get (if has_key scf key
                          then if negb (bool_decide (dict_get ov key = dict_get scf key))
                               then dict_set scf key val else scf
                          else dict_set scf key val) k'
                = if String.eqb key k' then Some val else dict_get scf k').
      { intros k''. destruct (has_key scf key) eqn:Hhas.
        - destruct (decide (dict_get ov key = dict_get scf key)) as [He | He].
          + rewrite bool_decide_eq_true_2 by assumption. cbn [negb].
            destruct (String.eqb_spec key k'') as [<- | Hne]; congruence.
          + rewrite bool_decide_eq_false_2 by assumption. cbn [negb].
            apply dict_get_set.
        - apply dict_get_set. }
      rewrite Hres, Hinv. destruct (String.eqb_spec key k') as [<- | Hne].
      * rewrite orb_true_r. congruence.
      * rewrite orb_false_r. reflexivity.
Qed.

Lemma take_value_get (scf d : list (string * V)) (key k : string) :
  dict_get (take_value scf d key) k
  = if String.eqb key k
    then match dict_get d key with
         | Some dv => Some (default dv (dict_get scf key))
         | None => None
         end
    else dict_get d k.
Proof.
  unfold take_value. destruct (dict_get d key) as [dv |] eqn:Hd.
  - apply dict_get_set.
  - destruct (String.eqb_spec key k) as [<- | Hne]; [exact Hd | reflexivity].
Qed.

Lemma has_key_take_value (scf d : list (string * V)) (key k : string) :
  has_key (take_value scf d key) k = has_key d k.
Proof.
  rewrite !has_key_get, take_value_get.
  destruct (String.eqb_spec key k) as [<- | Hne]; [| reflexivity].
  destruct (dict_get d key); reflexivity.
Qed.

Lemma fold_take_value_get (scf : list (string * V)) (keys : list string) :
  forall (d : list (string * V)) (k : string),
  dict_get (fold_left (take_value scf) keys d) k
  = match dict_get d k with
    | Some dv => Some (if bool_decide (k ∈ keys) then default dv (dict_get scf k) else dv)
    | None => None
    end.
Proof.
  induction keys as [| key keys IH]; intros d k; cbn [fold_left].
  - rewrite bool_decide_eq_false_2 by apply not_elem_of_nil.
    destruct (dict_get d k); reflexivity.
  - rewrite IH, take_value_get.
    destruct (String.eqb_spec key k) as [<- | Hne].
    + rewrite (bool_decide_eq_true_2 (key ∈ key :: keys)) by apply list_elem_of_here.
      destruct (dict_get d key) as [dv |]; [| reflexivity].
      destruct (bool_decide (key ∈ keys)); [| reflexivity].
      destruct (dict_get scf key); reflexivity.
    + destruct (dict_get d k) as [dv |]; [| reflexivity].
      destruct (decide (k ∈ keys)) as [Hin | Hnin].
      * rewrite !bool_decide_eq_true_2; [reflexivity | | assumption].
        by apply list_elem_of_further.
      * rewrite !bool_decide_eq_false_2; [reflexivity | | assumption].
        intros Hin. apply elem_of_cons in Hin as [-> | Hin]; [apply Hne | apply Hnin]; auto.
Qed.

Definition sorted_out (flex run : list (string * V)) (key : string) : bool :=
  has_key flex key || has_key run key.

Lemma set_same (c : context) (flex run : list (string * V)) :
  wf_parameters_flex c = Some flex -> run_options c = Some run ->
  set_run_options run (set_wf_parameters_flex flex c) = c.
Proof. destruct c; cbn; intros -> ->; reflexivity. Qed.

Lemma sort_one_run (scf : list (string * V)) (key_list : list string)
    (kv : string * V) (s : state context) (flex run : list (string * V)) :
  wf_parameters_flex (ctx s) = Some flex -> run_options (ctx s) = Some run ->
  exists evs,
    sort_one scf key_list kv s
    = (Ok (key_list ++ if sorted_out flex run (fst kv) then [fst kv] else []),
       mkState (set_run_options (take_value scf run (fst kv))
                  (set_wf_parameters_flex (take_value scf flex (fst kv)) (ctx s)))
               (log s ++ evs)).
Proof.
  intros Hflex Hrun. destruct kv as [key val]. destruct s as [c l].
  destruct c as [ov0 flex0 run0 scf0 gf ok]. cbn in Hflex, Hrun. subst flex0 run0.
  pose proof (has_key_get flex key) as Hf. pose proof (has_key_get run key) as Hr.
  unfold sort_one, sorted_out, take_value. cbn [fst snd].
  destruct (dict_get flex key) as [fv |] eqn:Ef; destruct (dict_get run key) as [rv |] eqn:Er;
    repeat (run_all; cbn [wf_parameters_flex run_options set_wf_parameters_flex
                          set_run_options orb];
            rewrite ?Hf, ?Hr, ?Ef, ?Er);
    cbn [set_wf_parameters_flex set_run_options wf_parameters_overwrite
         wf_parameters_flex run_options scf_wf_parameters gf_writeout host_gf_ok orb];
    eexists; try reflexivity.
  - instantiate (1 := []). rewrite !app_nil_r. reflexivity.
  - instantiate (1 := []). rewrite !app_nil_r. reflexivity.
Qed.

Lemma for_each_sort (scf : list (string * V)) (items : list (string * V)) :
  forall (key_list : list string) (s : state context) (flex run : list (string * V)),
  wf_parameters_flex (ctx s) = Some flex -> run_options (ctx s) = Some run ->
  exists evs,
    for_each items (sort_one scf) key_list s
    = (Ok (key_list ++ List.filter (sorted_out flex run) (map fst items)),
       mkState (set_run_options (fold_left (take_value scf) (map fst items) run)
                  (set_wf_parameters_flex
                     (fold_left (take_value scf) (map fst items) flex) (ctx s)))
               (log s ++ evs)).
Proof.
  induction items as [| kv items IH]; intros key_list s flex run Hflex Hrun;
    cbn [for_each fold_left map List.filter].
  - exists []. rewrite !app_nil_r, (set_same _ _ _ Hflex Hrun). destruct s; reflexivity.
  - destruct (sort_one_run scf key_list kv s flex run Hflex Hrun) as [evs1 H1].
    unfold bind at 1. rewrite H1.
    match goal with
    | |- context [for_each items _ ?kl ?st] =>
        destruct (IH kl st (take_value scf flex (fst kv)) (take_value scf run (fst kv)))
          as [evs2 H2]; [destruct (ctx s); reflexivity .. |]
    end.
    rewrite H2. exists (evs1 ++ evs2). cbn [ctx log].
    assert (Hsame : forall l : list string,
              List.filter (sorted_out (take_value scf flex (fst kv))
                                      (take_value scf run (fst kv))) l
              = List.filter (sorted_out flex run) l).
    { intros l. apply List.filter_ext. intros k. unfold sorted_out.
      rewrite !has_key_take_value. reflexivity. }
    rewrite Hsame. destruct (sorted_out flex run (fst kv)); cbn [app];
      rewrite <- ?app_assoc; cbn [app]; rewrite ?app_nil_r;
      destruct (ctx s); reflexivity.
Qed.

(** The outcome of [update_params] once [start] has filled the context. *)
Lemma update_params_run (inp : inputs) (s : state context)
    (scf0 flex0 run0 ov : list (string * V)) :
  scf_wf_parameters (ctx s) = Some scf0 ->
  wf_parameters_flex (ctx s) = Some flex0 ->
  run_options (ctx s) = Some run0 ->
  match inp_wf_parameters_overwrite inp with
  | Some _ => wf_parameters_overwrite (ctx s) = Some ov
  | None => ov = []
  end ->
  exists scf1 evs,
    (forall k, dict_get scf1 k = merged ov scf0 k)
    /\ update_params inp s
       = (Ok tt,
          mkState
            (set_scf_wf_parameters
               (fold_left dict_pop (List.filter (sorted_out flex0 run0) (map fst scf1)) scf1)
               (set_run_options (fold_left (take_value scf1) (map fst scf1) run0)
                  (set_wf_parameters_flex
                     (fold_left (take_value scf1) (map fst scf1) flex0) (ctx s))))
            (log s ++ evs)).
Proof.
  intros Hscf Hflex Hrun Hov.
  exists (fold_left (overwrite_val ov) ov scf0).
  assert (Hfirst : exists evs,
            (match inp_wf_parameters_overwrite inp with
             | Some _ =>
                 ov' <- ctx_attr "wf_parameters_overwrite" wf_parameters_overwrite ;;
                 for_each ov' (overwrite_one ov') scf0
             | None => ret scf0
             end) s
            = (Ok (fold_left (overwrite_val ov) ov scf0), mkState (ctx s) (log s ++ evs))).
  { destruct (inp_wf_parameters_overwrite inp).
    - unfold bind, ctx_attr. rewrite Hov. apply for_each_overwrite.
    - subst ov. exists []. rewrite app_nil_r. destruct s; reflexivity. }
  destruct Hfirst as [evs1 Hfirst].
  destruct (for_each_sort (fold_left (overwrite_val ov) ov scf0)
              (fold_left (overwrite_val ov) ov scf0) []
              (mkState (ctx s) (log s ++ evs1)) flex0 run0 Hflex Hrun) as [evs2 Hsecond].
  eexists. split.
  - apply (fold_overwrite_get ov scf0 ov [] scf0); [reflexivity | reflexivity].
  - unfold update_params.
    unfold bind at 1. unfold ctx_attr at 1. rewrite Hscf.
    unfold bind at 1. unfold ctx_attr at 1. rewrite Hflex.
    unfold bind at 1. unfold ctx_attr at 1. rewrite Hrun.
    unfold bind at 1. rewrite Hfirst.
    unfold bind at 1. rewrite Hsecond.
    unfold bind, report, emit, modify_ctx. cbn [ctx log app].
    rewrite <- !app_assoc. reflexivity.
Qed.

(** What [start] has put into the context and the overwrite dictionary
    [update_params] works with: the one of the context when the input is
    there, none otherwise. *)
Definition params_ready (inp : inputs) (c : context)
    (scf0 flex0 run0 ov : list (string * V)) : Prop :=
  scf_wf_parameters c = Some scf0
  /\ wf_parameters_flex c = Some flex0
  /\ run_options c = Some run0
  /\ match inp_wf_parameters_overwrite inp with
     | Some _ => wf_parameters_overwrite c = Some ov
     | None => ov = []
     end.

(** [update_params] hands on to kkr_imp_sub_wc the scf parameters with the
    values of [wf_parameters_overwrite] laid over them, without any key of
    [wf_parameters_flex] or [run_options]: such a key is never passed on,
    whichever of the two dictionaries it came from. *)
Theorem update_params_scf_parameters (inp : inputs) (s : state context)
    (scf0 flex0 run0 ov : list (string * V)) :
  params_ready inp (ctx s) scf0 flex0 run0 ov ->
  let out := update_params inp s in
  fst out = Ok tt
  /\ exists scf', scf_wf_parameters (ctx (snd out)) = Some scf'
     /\ forall k, dict_get scf' k
        = if has_key flex0 k || has_key run0 k then None else merged ov scf0 k.
Proof.
  intros (Hscf & Hflex & Hrun & Hov). cbv zeta.
  destruct (update_params_run inp s scf0 flex0 run0 ov Hscf Hflex Hrun Hov)
    as (scf1 & evs & Hmerged & Hrun_eq).
  rewrite Hrun_eq. cbn [fst snd ctx]. split; [reflexivity |].
  eexists. split; [reflexivity |].
  intros k. rewrite dict_get_pop_all. fold (sorted_out flex0 run0 k).
  destruct (sorted_out flex0 run0 k) eqn:Hsorted.
  - destruct (dict_get scf1 k) as [v |] eqn:Hk.
    + rewrite bool_decide_eq_true_2; [reflexivity |].
      apply list_elem_of_In, List.filter_In. split; [| exact Hsorted].
      apply list_elem_of_In, has_key_elem, has_key_true. rewrite Hk. eauto.
    + destruct (bool_decide _); reflexivity.
  - rewrite bool_decide_eq_false_2; [apply Hmerged |].
    intros Hin. apply list_elem_of_In, List.filter_In in Hin as [_ Hin]. congruence.
Qed.

(** [update_params] keeps the keys of [wf_parameters_flex] and of
    [run_options] and gives each of them the value of
    [wf_parameters_overwrite] when it has the key, else the value of the
    scf parameters when they have it, else the value it had; the rest of
    the context is as before. *)
Theorem update_params_run_options (inp : inputs) (s : state context)
    (scf0 flex0 run0 ov : list (string * V)) :
  params_ready inp (ctx s) scf0 flex0 run0 ov ->
  let c' := ctx (snd (update_params inp s)) in
  let resolved := fun (d : list (string * V)) (k : string) =>
    match dict_get d k with
    | Some dv => Some (default dv (merged ov scf0 k))
    | None => None
    end in
  (exists flex', wf_parameters_flex c' = Some flex'
     /\ forall k, dict_get flex' k = resolved flex0 k)
  /\ (exists run', run_options c' = Some run'
      /\ forall k, dict_get run' k = resolved run0 k)
  /\ wf_parameters_overwrite c' = wf_parameters_overwrite (ctx s)
  /\ gf_writeout c' = gf_writeout (ctx s)
  /\ host_gf_ok c' = host_gf_ok (ctx s).
Proof.
  intros (Hscf & Hflex & Hrun & Hov). cbv zeta.
  destruct (update_params_run inp s scf0 flex0 run0 ov Hscf Hflex Hrun Hov)
    as (scf1 & evs & Hmerged & Hrun_eq).
  rewrite Hrun_eq. cbn [fst snd ctx].
  assert (Hres : forall (d : list (string * V)) (k : string),
            dict_get (fold_left (take_value scf1) (map fst scf1) d) k
            = match dict_get d k with
              | Some dv => Some (default dv (merged ov scf0 k))
              | None => None
              end).
  { intros d k. rewrite fold_take_value_get.
    destruct (dict_get d k) as [dv |]; [| reflexivity].
    rewrite <- Hmerged.
    destruct (decide (k ∈ map fst scf1)) as [Hin | Hnin].
    - rewrite bool_decide_eq_true_2 by assumption. reflexivity.
    - rewrite bool_decide_eq_false_2 by assumption.
      replace (dict_get scf1 k) with (@None V); [reflexivity |].
      symmetry. apply has_key_false.
      destruct (has_key scf1 k) eqn:Hk; [| reflexivity].
      exfalso. apply Hnin, has_key_elem, Hk. }
  destruct (ctx s); cbn. repeat split; eauto.
Qed.

(** [check_host_gf] fails exactly when the host Green function had to be
    computed here (no [gf_host_remote] input) and its writeout did not
    finish successfully. With [gf_host_remote] given it passes whatever
    the context holds. Without it and without [gf_writeout] in the
    context it raises AttributeError, having set [host_gf_ok] to true. It
    reports nothing and touches no other attribute. *)
Theorem check_host_gf_fails_iff (inp : inputs) (s : state context) :
  let out := check_host_gf inp s in
  log (snd out) = log s
  /\ gf_writeout (ctx (snd out)) = gf_writeout (ctx s)
  /\ scf_wf_parameters (ctx (snd out)) = scf_wf_parameters (ctx s)
  /\ (is_Some (gf_host_remote inp) ->
      fst out = Ok None /\ host_gf_ok (ctx (snd out)) = Some true)
  /\ (gf_host_remote inp = None ->
      match gf_writeout (ctx s) with
      | Some gf =>
          fst out = Ok (if is_finished_ok gf then None
                        else Some CombineImps.ERROR_HOST_GF_CALC_FAILED)
          /\ host_gf_ok (ctx (snd out)) = Some (is_finished_ok gf)
      | None =>
          fst out = Raised (AttributeError "gf_writeout")
          /\ host_gf_ok (ctx (snd out)) = Some true
      end).
Proof.
  cbv zeta. unfold check_host_gf, need_gf_run. destruct s as [c l].
  destruct c as [ov flex run scf gf ok].
  destruct (gf_host_remote inp) as [remote |]; [| destruct gf as [[[|]] |]];
    run_all;
    cbn [set_host_gf_ok gf_writeout host_gf_ok scf_wf_parameters wf_parameters_overwrite
         wf_parameters_flex run_options is_finished_ok negb];
    run_all;
    cbn [set_host_gf_ok gf_writeout host_gf_ok scf_wf_parameters wf_parameters_overwrite
         wf_parameters_flex run_options is_finished_ok negb];
    repeat split; auto; try discriminate; try (intros [x Hx]; discriminate);
    try match goal with H : is_Some None |- _ => destruct H; discriminate end.
Qed.

End Steps.

(** *** [_check_input_imp] *)
Section CheckInput.
Context {C : Type}.











End CheckInput.
(** *** The steps on concrete dictionaries.

    Values are numbers, with 0 and 1 for the flags. The scf parameters
    hold a parameter of the scf workflow, one of the writeout workflow and
    a run option. *)
Module Example.

Definition scf0 : list (string * Z) :=
  [("nsteps", 50); ("retrieve_kkrflex", 1); ("jij_run", 0)].
Definition flex0 : list (string * Z) := [("retrieve_kkrflex", 0); ("ef_shift", 0)].
Definition run0 : list (string * Z) := [("jij_run", 0); ("ldau_run", 0)].
Definition ov : list (string * Z) := [("nsteps", 80); ("jij_run", 1); ("mixing", 5)].

Definition context0 (gf : option process_node) : context (V := Z) :=
  mkCtx (Some ov) (Some flex0) (Some run0) (Some scf0) gf None.

Definition state0 (gf : option process_node) : state (context (V := Z)) :=
  mkState (context0 gf) [].

(** With and without the [wf_parameters_overwrite] input; no
    [gf_host_remote]. *)
Definition inp_overwrite : inputs (V := Z) unit := mkInputs unit (Some ov) None.
Definition inp_plain : inputs (V := Z) unit := mkInputs unit None None.

End Example.

Example update_params_overwrite :
  let c' := ctx (snd (update_params unit Example.inp_overwrite (Example.state0 None))) in
  scf_wf_parameters c' = Some [("nsteps", 80); ("mixing", 5)]
  /\ wf_parameters_flex c' = Some [("retrieve_kkrflex", 1); ("ef_shift", 0)]
  /\ run_options c' = Some [("jij_run", 1); ("ldau_run", 0)].
Proof. vm_compute. auto. Qed.

Example update_params_plain :
  let c' := ctx (snd (update_params unit Example.inp_plain (Example.state0 None))) in
  scf_wf_parameters c' = Some [("nsteps", 50)]
  /\ run_options c' = Some [("jij_run", 0); ("ldau_run", 0)].
Proof. vm_compute. auto. Qed.

Lemma update_params_scf_parameters_witness :
  let out := update_params unit Example.inp_overwrite (Example.state0 None) in
  fst out = Ok tt
  /\ exists scf', scf_wf_parameters (ctx (snd out)) = Some scf'
       /\ dict_get scf' "nsteps" = Some 80
       /\ dict_get scf' "jij_run" = None
       /\ dict_get scf' "retrieve_kkrflex" = None.
Proof.
  intros out.
  destruct (update_params_scf_parameters unit Example.inp_overwrite (Example.state0 None)
              Example.scf0 Example.flex0 Example.run0 Example.ov)
    as (Hret & scf' & Hscf & Hget).
  - repeat split; reflexivity.
  - split; [exact Hret |]. exists scf'.
    split; [exact Hscf |].
    split; [exact (Hget "nsteps") |].
    split; [exact (Hget "jij_run") | exact (Hget "retrieve_kkrflex")].
Defined.

Lemma update_params_run_options_witness :
  let c' := ctx (snd (update_params unit Example.inp_overwrite (Example.state0 None))) in
  (exists flex', wf_parameters_flex c' = Some flex'
     /\ dict_get flex' "retrieve_kkrflex" = Some 1
     /\ dict_get flex' "ef_shift" = Some 0
     /\ dict_get flex' "nsteps" = None)
  /\ (exists run', run_options c' = Some run'
        /\ dict_get run' "jij_run" = Some 1
        /\ dict_get run' "ldau_run" = Some 0).
Proof.
  intros c'.
  destruct (update_params_run_options unit Example.inp_overwrite (Example.state0 None)
              Example.scf0 Example.flex0 Example.run0 Example.ov)
    as ((flex' & Hflex & Hf) & (run' & Hrun & Hr) & _).
  - repeat split; reflexivity.
  - split.
    + exists flex'. split; [exact Hflex |].
      split; [exact (Hf "retrieve_kkrflex") |].
      split; [exact (Hf "ef_shift") | exact (Hf "nsteps")].
    + exists run'. split; [exact Hrun |].
      split; [exact (Hr "jij_run") | exact (Hr "ldau_run")].
Defined.

Lemma check_host_gf_fails_iff_witness :
  let failed := Example.state0 (Some (mkProc false)) in
  let given : inputs (V := Z) unit := mkInputs unit None (Some tt) in
  fst (check_host_gf unit Example.inp_plain failed)
  = Ok (Some CombineImps.ERROR_HOST_GF_CALC_FAILED)
  /\ fst (check_host_gf unit given failed) = Ok None.
Proof.
  intros failed given. split.
  - destruct (check_host_gf_fails_iff unit Example.inp_plain failed)
      as (_ & _ & _ & _ & Hneed).
    exact (proj1 (Hneed eq_refl)).
  - destruct (check_host_gf_fails_iff unit given failed) as (_ & _ & _ & Hgiven & _).
    exact (proj1 (Hgiven (ex_intro _ tt eq_refl))).
Defined.


End CombineImpsSteps.

(** ** VoronoiCalculation.find_parent_structure (calculations/voro.py) *)
Module Voro.
Local Open Scope nat_scope.

Section FindParent.

(** Nodes of the provenance graph. [node.inp.<link>] raises when the node
    has no such input; the accessors give [None] there, which is all the
    [try/except] blocks of the class methods look at. *)
Variables (Node StructureData : Type).
Variable inp_structure : Node -> option StructureData.
Variable inp_remote_folder : Node -> option Node.
Variable inp_parent_calc_folder : Node -> option Node.
Variable inp_parent_calc : Node -> option Node.

(** [_get_struc] *)
Definition _get_struc (parent_calc : Node) : option StructureData :=
  inp_structure parent_calc.

(** [_has_struc] *)
Definition _has_struc (parent_folder : Node) : bool :=
  match inp_structure parent_folder with
  | Some _ => true
  | None => false
  end.

(** [_get_remote] *)
Definition _get_remote (parent_folder : Node) : Node :=
  match inp_remote_folder parent_folder with
  | Some parent_folder_tmp => parent_folder_tmp
  | None => parent_folder
  end.

(** [_get_parent] *)
Definition _get_parent (input_folder : Node) : Node :=
  match inp_parent_calc_folder input_folder with
  | Some parent_folder_tmp => parent_folder_tmp
  | None =>
      match inp_parent_calc input_folder with
      | Some parent_folder_tmp => parent_folder_tmp
      | None => input_folder
      end
  end.

Definition Nmaxiter : nat := 100.

(** The local variables of the [while] loop. *)
Record loop_state : Type := mkLoop { parent_folder_tmp : Node; iiter : nat }.

(** [not self._has_struc(parent_folder_tmp) and iiter<Nmaxiter] *)
Definition loop_cond (st : loop_state) : bool :=
  negb (_has_struc (parent_folder_tmp st)) && (iiter st <? Nmaxiter).

Definition loop_body (st : loop_state) : loop_state :=
  mkLoop (_get_remote (_get_parent (parent_folder_tmp st))) (iiter st + 1).

(** The [while] loop, with fuel for the number of passes through its body;
    [None] is "still running when the fuel is used up". *)
Fixpoint while_loop (fuel : nat) (st : loop_state) : option loop_state :=
  if loop_cond st then
    match fuel with
    | O => None
    | S fuel' => while_loop fuel' (loop_body st)
    end
  else Some st.

(** What the method returns: the pair [(struc, parent_folder_tmp)], or
    Python's [None] after printing 'struc not found'. *)
Inductive found : Type :=
| Struc (struc : StructureData) (folder : Node)
| PyNone.

Definition after_loop (st : loop_state) : found :=
  if _has_struc (parent_folder_tmp st) then
    match _get_struc (parent_folder_tmp st) with
    | Some struc => Struc struc (parent_folder_tmp st)
    | None => PyNone
    end
  else PyNone.

Definition loop_init (parent_folder : Node) : loop_state :=
  mkLoop (_get_remote parent_folder) 0.

(** [find_parent_structure], with the fuel of its loop. *)
Definition find_parent_structure (fuel : nat) (parent_folder : Node) : option found :=
  match while_loop fuel (loop_init parent_folder) with
  | Some st => Some (after_loop st)
  | None => None
  end.

(** The folder the loop looks at after [k] passes. *)
Fixpoint ancestor (k : nat) (parent_folder : Node) : Node :=
  match k with
  | O => _get_remote parent_folder
  | S k' => _get_remote (_get_parent (ancestor k' parent_folder))
  end.

(** *** Termination and result of the traversal *)

Lemma loop_body_ancestor (parent_folder : Node) (n : nat) :
  loop_body (mkLoop (ancestor n parent_folder) n)
  = mkLoop (ancestor (S n) parent_folder) (S n).
Proof. unfold loop_body. cbn [parent_folder_tmp iiter ancestor]. rewrite Nat.add_1_r. reflexivity. Qed.

(** From pass [n] on, with fuel for the passes that are left, the loop
    stops after [n' <= Nmaxiter] passes, at the first ancestor with a
    structure or at pass [Nmaxiter]. *)
Lemma while_loop_run (parent_folder : Node) : forall fuel n,
  n <= Nmaxiter -> Nmaxiter - n <= fuel ->
  (forall m, m < n -> _has_struc (ancestor m parent_folder) = false) ->
  exists n', n <= n' <= Nmaxiter
    /\ while_loop fuel (mkLoop (ancestor n parent_folder) n)
       = Some (mkLoop (ancestor n' parent_folder) n')
    /\ (forall m, m < n' -> _has_struc (ancestor m parent_folder) = false)
    /\ (_has_struc (ancestor n' parent_folder) = true \/ n' = Nmaxiter).
Proof.
  induction fuel as [| fuel IH]; intros n Hn Hfuel Hbefore.
  - exists n. assert (n = Nmaxiter) as Heq by lia.
    cbn [while_loop]. unfold loop_cond. cbn [parent_folder_tmp iiter].
    replace (n <? Nmaxiter) with false by (symmetry; apply Nat.ltb_ge; lia).
    rewrite andb_false_r. auto with lia.
  - cbn [while_loop]. unfold loop_cond. cbn [parent_folder_tmp iiter].
    destruct (_has_struc (ancestor n parent_folder)) eqn:Hs; cbn [negb andb].
    { exists n. auto with lia. }
    destruct (Nat.ltb_spec n Nmaxiter) as [Hlt | Hge].
    + rewrite loop_body_ancestor.
      destruct (IH (S n)) as (n' & Hn' & Hrun & Hbefore' & Hstop); [lia | lia | |].
      { intros m Hm. destruct (decide (m = n)) as [-> | Hne]; [assumption |].
        apply Hbefore. lia. }
      exists n'. auto with lia.
    + exists n. assert (n = Nmaxiter) as Heq by lia. auto with lia.
Qed.

(** C8. [find_parent_structure] terminates on every chain of parents: with
    fuel for [Nmaxiter] = 100 passes its loop has stopped, after [n <= 100]
    passes, at the first folder on the chain that has a structure or, when
    none of the first 100 has one, at pass 100. It then returns the
    structure together with the folder it was found in, or None when the
    folder it stopped at has no structure; so it returns None when no
    ancestor carries a structure. *)
Theorem find_parent_structure_terminates (parent_folder : Node) (fuel : nat) :
  Nmaxiter <= fuel ->
  Nmaxiter = 100
  /\ exists n, n <= Nmaxiter
     /\ while_loop fuel (loop_init parent_folder)
        = Some (mkLoop (ancestor n parent_folder) n)
     /\ (forall m, m < n -> inp_structure (ancestor m parent_folder) = None)
     /\ find_parent_structure fuel parent_folder
        = Some (match inp_structure (ancestor n parent_folder) with
                | Some struc => Struc struc (ancestor n parent_folder)
                | None => PyNone
                end)
     /\ (inp_structure (ancestor n parent_folder) = None -> n = Nmaxiter)
     /\ ((forall k, inp_structure (ancestor k parent_folder) = None) ->
         find_parent_structure fuel parent_folder = Some PyNone).
Proof.
  intros Hfuel. split; [reflexivity |].
  destruct (while_loop_run parent_folder fuel 0) as (n & Hn & Hrun & Hbefore & Hstop);
    [lia | lia | intros m Hm; lia |].
  exists n. split; [lia |].
  assert (Hfind : find_parent_structure fuel parent_folder
                  = Some (match inp_structure (ancestor n parent_folder) with
                          | Some struc => Struc struc (ancestor n parent_folder)
                          | None => PyNone
                          end)).
  { unfold find_parent_structure, loop_init. change (_get_remote parent_folder)
      with (ancestor 0 parent_folder). rewrite Hrun.
    unfold after_loop, _has_struc, _get_struc. cbn [parent_folder_tmp].
    destruct (inp_structure (ancestor n parent_folder)); reflexivity. }
  split; [exact Hrun |]. split; [| split; [exact Hfind | split]].
  - intros m Hm. specialize (Hbefore m Hm). unfold _has_struc in Hbefore.
    destruct (inp_structure (ancestor m parent_folder)); [discriminate | reflexivity].
  - intros Hnone. destruct Hstop as [Hs | Hs]; [| exact Hs].
    unfold _has_struc in Hs. rewrite Hnone in Hs. discriminate.
  - intros Hall. rewrite Hfind, Hall. reflexivity.
Qed.

(** *** More on the traversal *)

(** [find_parent_structure] returns None exactly when none of the folders
    it can reach in 100 steps has a structure: a folder further up the
    chain is not looked at. Otherwise it returns the structure of the first
    folder on the chain that has one, with that folder. *)
Theorem find_parent_structure_first_within_limit (parent_folder : Node) (fuel : nat) :
  Nmaxiter <= fuel ->
  (find_parent_structure fuel parent_folder = Some PyNone
   <-> forall k, k <= Nmaxiter -> inp_structure (ancestor k parent_folder) = None)
  /\ (forall struc folder,
        find_parent_structure fuel parent_folder = Some (Struc struc folder)
        <-> exists n, n <= Nmaxiter
              /\ folder = ancestor n parent_folder
              /\ inp_structure folder = Some struc
              /\ forall m, m < n -> inp_structure (ancestor m parent_folder) = None).
Proof.
  intros Hfuel.
  destruct (while_loop_run parent_folder fuel 0) as (n & Hn & Hrun & Hbefore & Hstop);
    [lia | lia | intros m Hm; lia |].
  assert (Hnone : forall m, m < n -> inp_structure (ancestor m parent_folder) = None).
  { intros m Hm. specialize (Hbefore m Hm). unfold _has_struc in Hbefore.
    destruct (inp_structure (ancestor m parent_folder)); [discriminate | reflexivity]. }
  assert (Hfind : find_parent_structure fuel parent_folder
                  = Some (match inp_structure (ancestor n parent_folder) with
                          | Some struc => Struc struc (ancestor n parent_folder)
                          | None => PyNone
                          end)).
  { unfold find_parent_structure, loop_init. change (_get_remote parent_folder)
      with (ancestor 0 parent_folder). rewrite Hrun.
    unfold after_loop, _has_struc, _get_struc. cbn [parent_folder_tmp].
    destruct (inp_structure (ancestor n parent_folder)); reflexivity. }
  rewrite Hfind. split.
  - split.
    + intros Hres k Hk.
      destruct (inp_structure (ancestor n parent_folder)) eqn:Hs; [discriminate |].
      destruct Hstop as [Hhas | Hmax].
      * unfold _has_struc in Hhas. rewrite Hs in Hhas. discriminate.
      * destruct (decide (k = n)) as [-> | Hne]; [exact Hs | apply Hnone; lia].
    + intros Hall. rewrite (Hall n) by lia. reflexivity.
  - intros struc folder. split.
    + intros Hres.
      destruct (inp_structure (ancestor n parent_folder)) as [s0 |] eqn:Hs; [| discriminate].
      injection Hres as <- <-. exists n. repeat split; auto; lia.
    + intros (n' & Hn' & -> & Hs' & Hnone').
      assert (n' = n) as ->.
      { destruct (Nat.lt_trichotomy n' n) as [Hlt | [Heq | Hgt]]; [| exact Heq |].
        - rewrite (Hnone n' Hlt) in Hs'. discriminate.
        - destruct Hstop as [Hhas | Hmax]; [| lia].
          unfold _has_struc in Hhas. rewrite (Hnone' n Hgt) in Hhas. discriminate. }
      rewrite Hs'. reflexivity.
Qed.

(** The end of the chain is not noticed: a folder without a structure that
    has neither a parent nor a remote folder is its own parent, so the loop
    goes round on it [Nmaxiter] times before the method returns None. *)
Theorem find_parent_structure_root_without_structure (parent_folder : Node) (fuel : nat) :
  Nmaxiter <= fuel ->
  inp_structure parent_folder = None ->
  inp_remote_folder parent_folder = None ->
  inp_parent_calc_folder parent_folder = None ->
  inp_parent_calc parent_folder = None ->
  while_loop fuel (loop_init parent_folder) = Some (mkLoop parent_folder Nmaxiter)
  /\ find_parent_structure fuel parent_folder = Some PyNone.
Proof.
  intros Hfuel Hs Hr Hpf Hpc.
  assert (Hanc : forall k, ancestor k parent_folder = parent_folder).
  { induction k as [| k IH]; cbn [ancestor].
    - unfold _get_remote. rewrite Hr. reflexivity.
    - rewrite IH. unfold _get_parent, _get_remote. rewrite Hpf, Hpc, Hr. reflexivity. }
  destruct (while_loop_run parent_folder fuel 0) as (n & Hn & Hrun & Hbefore & Hstop);
    [lia | lia | intros m Hm; lia |].
  rewrite !Hanc in Hrun. rewrite Hanc in Hstop.
  destruct Hstop as [Hhas | ->].
  { unfold _has_struc in Hhas. rewrite Hs in Hhas. discriminate. }
  assert (Hinit : loop_init parent_folder = mkLoop parent_folder 0).
  { unfold loop_init, _get_remote. rewrite Hr. reflexivity. }
  rewrite Hinit. split; [exact Hrun |].
  unfold find_parent_structure. rewrite Hinit, Hrun.
  unfold after_loop, _has_struc. cbn [parent_folder_tmp]. rewrite Hs. reflexivity.
Qed.

End FindParent.

(** A chain of calculations numbered upwards: folder [k] has parent
    [k + 1], and only folder [top] has a structure. *)
Module Chain.
Definition inp_structure (top k : nat) : option nat :=
  if k =? top then Some 7 else None.
Definition no_link (k : nat) : option nat := None.
Definition inp_parent_calc_folder (k : nat) : option nat := Some (S k).
Definition find (top : nat) : nat -> nat -> option (found nat nat) :=
  find_parent_structure nat nat (inp_structure top) no_link
                        inp_parent_calc_folder no_link.
End Chain.

Example find_parent_structure_near : Chain.find 3 100 0 = Some (Struc nat nat 7 3).
Proof. vm_compute. reflexivity. Qed.

Example find_parent_structure_at_100 : Chain.find 100 100 0 = Some (Struc nat nat 7 100).
Proof. vm_compute. reflexivity. Qed.

Example find_parent_structure_too_far : Chain.find 101 100 0 = Some (PyNone nat nat).
Proof. vm_compute. reflexivity. Qed.

Example find_parent_structure_short_of_fuel : Chain.find 101 99 0 = None.
Proof. vm_compute. reflexivity. Qed.

Lemma find_parent_structure_terminates_witness :
  exists n, n <= Nmaxiter
    /\ while_loop nat nat (Chain.inp_structure 3) Chain.no_link
         Chain.inp_parent_calc_folder Chain.no_link 100
         (loop_init nat Chain.no_link 0)
       = Some (mkLoop nat (ancestor nat Chain.no_link Chain.inp_parent_calc_folder
                                    Chain.no_link n 0) n).
Proof.
  destruct (find_parent_structure_terminates nat nat (Chain.inp_structure 3)
              Chain.no_link Chain.inp_parent_calc_folder Chain.no_link 0 100)
    as (_ & n & Hn & Hrun & _).
  - unfold Nmaxiter. lia.
  - exists n. split; [exact Hn | exact Hrun].
Defined.
Lemma find_parent_structure_first_within_limit_witness :
  Chain.find 3 100 0 = Some (Struc nat nat 7 3).
Proof.
  destruct (find_parent_structure_first_within_limit nat nat (Chain.inp_structure 3)
              Chain.no_link Chain.inp_parent_calc_folder Chain.no_link 0 100)
    as (_ & Hfirst).
  - unfold Nmaxiter. lia.
  - apply Hfirst. exists 3. split; [unfold Nmaxiter; lia |].
    split; [reflexivity |]. split; [reflexivity |].
    intros m Hm. destruct m as [| [| [| m]]]; [reflexivity | reflexivity | reflexivity | lia].
Defined.

(** A calculation without inputs: no structure, no parent, no remote
    folder. *)
Example find_parent_structure_orphan :
  find_parent_structure nat nat Chain.no_link Chain.no_link Chain.no_link
                        Chain.no_link 100 0
  = Some (PyNone nat nat).
Proof. vm_compute. reflexivity. Qed.

Lemma find_parent_structure_root_without_structure_witness :
  while_loop nat nat Chain.no_link Chain.no_link Chain.no_link Chain.no_link 100
             (loop_init nat Chain.no_link 0)
  = Some (mkLoop nat 0 100).
Proof.
  refine (proj1 (find_parent_structure_root_without_structure nat nat Chain.no_link
                   Chain.no_link Chain.no_link Chain.no_link 0 100 _
                   eq_refl eq_refl eq_refl eq_refl)).
  unfold Nmaxiter. lia.
Defined.

End Voro.

(** ** kkr_dos_wc (workflows/dos.py) *)
Module Dos.
Import Wc.
Local Open Scope wc_scope.

(** Python values that occur in the workflow's dictionaries. *)
#[local] Set Warnings "-register-all".
Inductive pyvalue : Type :=
| PyNone
| PyBool (b : bool)
| PyInt (z : Z)
| PyStr (s : string)
| PyList (l : list pyvalue)
| PyDict (d : gmap string pyvalue).

(** [_wf_default] *)
Definition _wf_default : gmap string pyvalue :=
  {[ "dos_params" :=
       PyDict (<["nepts" := PyInt 61]>
              (<["tempr" := PyInt 200]>
              (<["emin" := PyInt (-1)]>
              (<["emax" := PyInt 1]>
              (<["kmesh" := PyList [PyInt 30; PyInt 30; PyInt 30]]> ∅))))) ]}.

(** [_options_default] *)
Definition _options_default : gmap string pyvalue :=
  <["queue_name" := PyStr ""]>
  (<["resources" := PyDict {[ "num_machines" := PyInt 1 ]}]>
  (<["max_wallclock_seconds" := PyInt (60 * 60)]>
  (<["use_mpi" := PyBool true]>
  (<["custom_scheduler_commands" := PyStr ""]> ∅)))).

Definition _wf_description : string :=
  "Workflow for a KKR dos calculation starting either from a structure with automatic voronoi calculation or a valid RemoteData node of a previous calculation.".
Definition _wf_label : string := "kkr_dos_wc".

(** The optional [Dict] inputs as the caller passes them. *)
Record inputs : Type := mkInputs {
  wf_parameters : option (gmap string pyvalue);
  options : option (gmap string pyvalue)
}.

(** Defaults of the input ports in [define]:
    [spec.input("wf_parameters", ..., default=Dict(dict=cls._wf_default))] and
    [spec.input("options", ..., default=Dict(dict=cls._wf_default))]. *)
Definition port_default_wf_parameters : gmap string pyvalue := _wf_default.
Definition port_default_options : gmap string pyvalue := _wf_default.

(** [self.inputs.<port>.get_dict()] once the engine has filled in the
    default of an omitted port. *)
Definition port_value (dflt : gmap string pyvalue)
    (given : option (gmap string pyvalue)) : gmap string pyvalue :=
  default dflt given.

(** [d == {}] *)
Definition is_empty_dict (d : gmap string pyvalue) : bool :=
  match map_to_list d with [] => true | _ => false end.

(** [d.get(key, dflt[key])]; the default is itself a subscript. *)
Definition get_or_default (d dflt : gmap string pyvalue) (key : string)
  : wc (gmap string pyvalue) pyvalue :=
  match dflt !! key with
  | None => raise (KeyError key)
  | Some dv => ret (default dv (d !! key))
  end.

(** [self.ctx.<name> = v]: the context is an attribute dictionary. *)
Definition set_attr (name : string) (v : pyvalue) : wc (gmap string pyvalue) unit :=
  modify_ctx (insert name v).

(** [start] *)
Definition start (inp : inputs) : wc (gmap string pyvalue) unit :=
  report "INFO: started KKR dos workflow version {}" ;;;
  let wf_dict := port_value port_default_wf_parameters (wf_parameters inp) in
  let options_dict := port_value port_default_options (options inp) in
  wf_dict <- (if is_empty_dict wf_dict
              then report "INFO: using default wf parameter" ;;; ret _wf_default
              else ret wf_dict) ;;
  options_dict <- (if is_empty_dict options_dict
                   then report "INFO: using default options" ;;; ret _options_default
                   else ret options_dict) ;;
  v <- get_or_default options_dict _options_default "use_mpi" ;;
  set_attr "use_mpi" v ;;;
  v <- get_or_default options_dict _options_default "resources" ;;
  set_attr "resources" v ;;;
  v <- get_or_default options_dict _options_default "max_wallclock_seconds" ;;
  set_attr "max_wallclock_seconds" v ;;;
  v <- get_or_default options_dict _options_default "queue_name" ;;
  set_attr "queue" v ;;;
  v <- get_or_default options_dict _options_default "custom_scheduler_commands" ;;
  set_attr "custom_scheduler_commands" v ;;;
  v <- get_or_default wf_dict _wf_default "dos_params" ;;
  set_attr "dos_params_dict" v ;;;
  set_attr "dos_kkrparams" PyNone ;;;
  set_attr "description_wf" (PyStr _wf_description) ;;;
  set_attr "label_wf" (PyStr _wf_label) ;;;
  report "INFO: use the following parameter:" ;;;
  set_attr "successful" (PyBool true) ;;;
  set_attr "errors" (PyList []) ;;;
  set_attr "formula" (PyStr "").

(** The computer options read by [start]: key of the options dictionary
    and the context attribute it ends up in. *)
Definition computer_options : list (string * string) :=
  [("use_mpi", "use_mpi"); ("resources", "resources");
   ("max_wallclock_seconds", "max_wallclock_seconds");
   ("queue_name", "queue");
   ("custom_scheduler_commands", "custom_scheduler_commands")].

(** *** The options of [start] when the caller gives none *)

Lemma wf_default_not_empty : is_empty_dict _wf_default = false.
Proof. vm_compute. reflexivity. Qed.

Lemma wf_default_dos_params : is_Some (_wf_default !! "dos_params").
Proof. vm_compute. eauto. Qed.

Lemma options_default_lookup :
  _options_default !! "use_mpi" = Some (PyBool true)
  /\ _options_default !! "resources" = Some (PyDict {[ "num_machines" := PyInt 1 ]})
  /\ _options_default !! "max_wallclock_seconds" = Some (PyInt 3600)
  /\ _options_default !! "queue_name" = Some (PyStr "")
  /\ _options_default !! "custom_scheduler_commands" = Some (PyStr "").
Proof. vm_compute. auto. Qed.

Lemma wf_default_lookup :
  _wf_default !! "use_mpi" = None
  /\ _wf_default !! "resources" = None
  /\ _wf_default !! "max_wallclock_seconds" = None
  /\ _wf_default !! "queue_name" = None
  /\ _wf_default !! "custom_scheduler_commands" = None.
Proof. vm_compute. auto. Qed.

(** What [start] has to say about one computer option: the dictionary
    that stands in for the omitted input has no such key, [_options_default]
    has one, and the context attribute holds the value of
    [_options_default]. *)
Definition option_from_default (c : gmap string pyvalue) (ka : string * string) : Prop :=
  _wf_default !! fst ka = None
  /\ is_Some (_options_default !! fst ka)
  /\ c !! snd ka = _options_default !! fst ka.

(** C9. When the caller omits [options], the port hands [start] the
    dictionary [_wf_default]; it is not empty, so [options_dict] is not
    replaced by [_options_default], and it has none of the computer-option
    keys. [start] runs through, and every computer option in the context
    (use_mpi, resources, max_wallclock_seconds, queue,
    custom_scheduler_commands) has its value of [_options_default]. *)
Theorem start_options_omitted (wfp : option (gmap string pyvalue))
    (s : state (gmap string pyvalue)) :
  let out := start (mkInputs wfp None) s in
  port_value port_default_options None = _wf_default
  /\ is_empty_dict (port_value port_default_options None) = false
  /\ fst out = Ok tt
  /\ Forall (option_from_default (ctx (snd out))) computer_options.
Proof.
  cbv zeta.
  destruct options_default_lookup as (O1 & O2 & O3 & O4 & O5).
  destruct wf_default_lookup as (W1 & W2 & W3 & W4 & W5).
  pose proof wf_default_dos_params as Hdp.
  split; [reflexivity |]. split; [exact wf_default_not_empty |].
  unfold start, get_or_default, set_attr, port_value, port_default_options.
  cbn [options wf_parameters default].
  unfold bind, ret, report, emit, modify_ctx.
  rewrite wf_default_not_empty.
  assert (Hopt : forall c : gmap string pyvalue,
            c !! "use_mpi" = Some (PyBool true) ->
            c !! "resources" = Some (PyDict {[ "num_machines" := PyInt 1 ]}) ->
            c !! "max_wallclock_seconds" = Some (PyInt 3600) ->
            c !! "queue" = Some (PyStr "") ->
            c !! "custom_scheduler_commands" = Some (PyStr "") ->
            Forall (option_from_default c) computer_options).
  { intros c C1 C2 C3 C4 C5. unfold computer_options, option_from_default.
    repeat (apply List.Forall_cons; [cbn [fst snd]; split; [assumption | split; [eauto | congruence]] |]).
    apply List.Forall_nil. }
  destruct (is_empty_dict _); cbn [ctx log];
    rewrite O1, O2, O3, O4, O5, W1, W2, W3, W4, W5; cbn [ctx log default];
    destruct (_wf_default !! "dos_params"); try (destruct Hdp; discriminate);
    cbn [fst snd ctx log]; (split; [reflexivity |]);
    apply Hopt; by simplify_map_eq.
Qed.

(** [start] from an empty context, with neither input given. *)
Example start_no_inputs_use_mpi :
  let out := start (mkInputs None None) (mkState ∅ []) in
  fst out = Ok tt
  /\ ctx (snd out) !! "use_mpi" = Some (PyBool true)
  /\ ctx (snd out) !! "max_wallclock_seconds" = Some (PyInt 3600)
  /\ ctx (snd out) !! "queue" = Some (PyStr "").
Proof. vm_compute. auto. Qed.

(** *** The options of [start] in general *)

Lemma is_empty_dict_lookup (d : gmap string pyvalue) (key : string) :
  is_empty_dict d = true -> d !! key = None.
Proof.
  unfold is_empty_dict. destruct (map_to_list d) eqn:Hl; [| discriminate].
  intros _. apply map_to_list_empty_iff in Hl. subst d. apply lookup_empty.
Qed.

(** [d.get(key, dflt[key])] *)
Definition get_with_default (d dflt : gmap string pyvalue) (key : string) : option pyvalue :=
  match d !! key with
  | Some v => Some v
  | None => dflt !! key
  end.

Lemma bind_step {C A B} (m : wc C A) (k : A -> wc C B) (s : state C)
    (a : A) (s' : state C) :
  m s = (Ok a, s') -> bind m k s = k a s'.
Proof. intros H. unfold bind. rewrite H. reflexivity. Qed.

Lemma get_or_default_run (d dflt : gmap string pyvalue) (key : string) (dv : pyvalue)
    (s : state (gmap string pyvalue)) :
  dflt !! key = Some dv ->
  get_or_default d dflt key s = (Ok (default dv (d !! key)), s).
Proof. intros H. unfold get_or_default. rewrite H. reflexivity. Qed.

(** The attributes [start] leaves in the context. *)
Lemma start_attrs (inp : inputs) (s : state (gmap string pyvalue)) :
  let out := start inp s in
  let options_dict := port_value port_default_options (options inp) in
  let wf_dict := port_value port_default_wf_parameters (wf_parameters inp) in
  let opt := get_with_default options_dict _options_default in
  fst out = Ok tt
  /\ (ctx (snd out) !! "use_mpi" = opt "use_mpi"
      /\ ctx (snd out) !! "resources" = opt "resources"
      /\ ctx (snd out) !! "max_wallclock_seconds" = opt "max_wallclock_seconds"
      /\ ctx (snd out) !! "queue" = opt "queue_name"
      /\ ctx (snd out) !! "custom_scheduler_commands" = opt "custom_scheduler_commands")
  /\ ctx (snd out) !! "dos_params_dict" = get_with_default wf_dict _wf_default "dos_params"
  /\ ctx (snd out) !! "successful" = Some (PyBool true)
  /\ ctx (snd out) !! "errors" = Some (PyList []).
Proof.
  cbv zeta.
  destruct options_default_lookup as (O1 & O2 & O3 & O4 & O5).
  destruct wf_default_dos_params as [dp Hdp].
  unfold get_with_default.
  set (opts := port_value port_default_options (options inp)).
  set (wf := port_value port_default_wf_parameters (wf_parameters inp)).
  pose proof (is_empty_dict_lookup opts) as Heo.
  pose proof (is_empty_dict_lookup wf) as Hew.
  destruct (start inp s) as [r s'] eqn:Hstart.
  unfold start in Hstart. fold opts wf in Hstart.
  set (od := _options_default) in *. set (wd := _wf_default) in *.
  clearbody od wd opts wf.
  erewrite bind_step in Hstart by reflexivity. cbn [ctx log] in Hstart.
  destruct (is_empty_dict wf); destruct (is_empty_dict opts);
    do 2 (erewrite bind_step in Hstart by reflexivity; cbn [ctx log] in Hstart);
    repeat (erewrite bind_step in Hstart by (apply get_or_default_run; eassumption);
            erewrite bind_step in Hstart by reflexivity; cbn [ctx log] in Hstart);
    repeat (erewrite bind_step in Hstart by reflexivity; cbn [ctx log] in Hstart);
    unfold set_attr, modify_ctx in Hstart; cbn [ctx log] in Hstart;
    injection Hstart as <- <-; cbn [fst snd ctx];
    repeat split;
    repeat first [rewrite lookup_insert_eq | rewrite lookup_insert_ne by discriminate];
    rewrite ?O1, ?O2, ?O3, ?O4, ?O5, ?Hdp, ?Heo, ?Hew by reflexivity;
    try reflexivity;
    match goal with
    | |- Some (default _ ?o) = _ => destruct o; reflexivity
    end.
Qed.


(** Whatever the caller passes, [start] runs through, and each computer
    option in the context is the value the [options] input has for its
    key, or else the value of [_options_default]: an options dictionary
    that gives only some keys is completed key by key, and an empty one
    gives all defaults. In the same way [dos_params_dict] is the
    ['dos_params'] of [wf_parameters], or else the one of [_wf_default]. *)
Theorem start_resolves_options (inp : inputs) (s : state (gmap string pyvalue)) :
  let out := start inp s in
  let options_dict := port_value port_default_options (options inp) in
  let wf_dict := port_value port_default_wf_parameters (wf_parameters inp) in
  fst out = Ok tt
  /\ Forall (fun ka : string * string =>
               ctx (snd out) !! snd ka
               = get_with_default options_dict _options_default (fst ka))
            computer_options
  /\ ctx (snd out) !! "dos_params_dict" = get_with_default wf_dict _wf_default "dos_params".
Proof.
  cbv zeta.
  destruct (start_attrs inp s) as (Hret & (H1 & H2 & H3 & H4 & H5) & Hdos & _).
  split; [exact Hret |]. split; [| exact Hdos].
  unfold computer_options.
  repeat (apply List.Forall_cons; [cbn [fst snd]; assumption |]).
  apply List.Forall_nil.
Qed.

End Dos.

(** ** kkr_dos_wc.return_results (workflows/dos.py) *)
Module DosSteps.
Import Wc Dos.
Local Open Scope wc_scope.

(** [spec.exit_code(...)] of [kkr_dos_wc.define] *)
Inductive exit_code : Type :=
| ERROR_NO_INPUT_REMOTE_DATA
| ERROR_KKRCODE_NOT_CORRECT
| ERROR_CALC_PARAMETERS_INVALID
| ERROR_CALC_PARAMETERS_INCOMPLETE
| ERROR_DOS_PARAMS_INVALID
| ERROR_DOS_CALC_FAILED.

Definition exit_status (e : exit_code) : Z :=
  match e with
  | ERROR_NO_INPUT_REMOTE_DATA => 161
  | ERROR_KKRCODE_NOT_CORRECT => 162
  | ERROR_CALC_PARAMETERS_INVALID => 163
  | ERROR_CALC_PARAMETERS_INCOMPLETE => 164
  | ERROR_DOS_PARAMS_INVALID => 165
  | ERROR_DOS_CALC_FAILED => 166
  end.

Definition _workflowversion : string := "0.6.2".

Section ReturnResults.

(** The retrieved folder of the DOS calculation and the data nodes made
    from its DOS file. *)
Variables (Retrieved XyData : Type).
(** [dos_retrieved.list_object_names()] *)
Variable list_object_names : Retrieved -> list string.
(** [parse_dosfiles(dos_retrieved.open('complex.dos'))]: the two XyData
    nodes (raw and interpolated); it rests on masci_tools' interpolate_dos. *)
Variable parse_dosfiles : Retrieved -> XyData * XyData.

(** The DOS calculation in the context, as far as [return_results] looks at
    it. [res_nspin] is [dosrun.res.nspin], [None] when evaluating it raises;
    [outputs_retrieved] is [dosrun.outputs.retrieved], [None] when that
    raises AttributeError. *)
Record dosrun_node : Type := mkDosrun {
  is_finished_ok : bool;
  process_state : string;
  res_nspin : option pyvalue;
  outputs_retrieved : option Retrieved
}.

(** Nodes handed to [self.out]. *)
Inductive out_node : Type :=
| DictNode (d : gmap string pyvalue)
| XyNode (x : XyData).

(** [self.ctx] with the attribute dictionary of [Dos.start], the awaited
    [dosrun], and next to it the outputs registered so far. *)
Record context : Type := mkCtx {
  attrs : gmap string pyvalue;
  dosrun : option dosrun_node;
  outputs : list (string * out_node)
}.

(** [self.ctx.<name>] *)
Definition attr (name : string) : wc context pyvalue :=
  ctx_attr name (fun c => attrs c !! name).

(** [self.ctx.<name> = v] *)
Definition set_attr (name : string) (v : pyvalue) : wc context unit :=
  modify_ctx (fun c => mkCtx (<[name := v]> (attrs c)) (dosrun c) (outputs c)).

(** [self.ctx.errors.append(error)]: only a list has [append] *)
Definition errors_append (error : string) : wc context unit :=
  errors <- attr "errors" ;;
  match errors with
  | PyList l => set_attr "errors" (PyList (l ++ [PyStr error]))
  | _ => raise (AttributeError "append")
  end.

(** [self.out(link_name, node)] *)
Definition out (link_name : string) (node : out_node) : wc context unit :=
  modify_ctx (fun c => mkCtx (attrs c) (dosrun c) (outputs c ++ [(link_name, node)])).

(** [for link_name, node in outdict.items(): ... self.out(link_name, node)] *)
Fixpoint for_each_out (outdict : list (string * out_node)) : wc context unit :=
  match outdict with
  | [] => ret tt
  | (link_name, node) :: rest => out link_name node ;;; for_each_out rest
  end.

(** [self.ctx.dosrun.outputs.retrieved] outside the [try] *)
Definition eval_attr {A} (o : option A) : wc context A :=
  match o with
  | Some a => ret a
  | None => raise (AttributeError "retrieved")
  end.

Definition newline : string := String (Ascii.ascii_of_nat 10) EmptyString.

Definition failed_message (run : dosrun_node) : string :=
  String.append "ERROR: DOS calculation failed somehow it is in state " (process_state run).

(** [return_results] *)
Definition return_results : wc context (option exit_code) :=
  run <- ctx_attr "dosrun" dosrun ;;
  if negb (is_finished_ok run) then
    set_attr "successful" (PyBool false) ;;;
    let error := failed_message run in
    report error ;;;
    errors_append error ;;;
    ret (Some ERROR_DOS_CALC_FAILED)
  else
    let d := <["workflow_name" := PyStr "kkr_dos_wc"]> ∅ in
    let d := <["workflow_version" := PyStr _workflowversion]> d in
    v <- attr "use_mpi" ;; let d := <["use_mpi" := v]> d in
    v <- attr "resources" ;; let d := <["resources" := v]> d in
    v <- attr "max_wallclock_seconds" ;; let d := <["max_wallclock_seconds" := v]> d in
    v <- attr "queue" ;; let d := <["queue_name" := v]> d in
    v <- attr "custom_scheduler_commands" ;; let d := <["custom_scheduler_commands" := v]> d in
    v <- attr "dos_params_dict" ;; let d := <["dos_params" := v]> d in
    d <- (match res_nspin run with
          | Some nspin => ret (<["nspin" := nspin]> d)
          | None =>
              let error := "ERROR: nspin not extracted" in
              report error ;;;
              set_attr "successful" (PyBool false) ;;;
              errors_append error ;;;
              ret d
          end) ;;
    v <- attr "successful" ;; let d := <["successful" := v]> d in
    v <- attr "errors" ;; let d := <["list_of_errors" := v]> d in
    let outputnode := DictNode d in
    report "INFO: create dos results nodes: outputnode={}" ;;;
    has_dosrun <- (match outputs_retrieved run with
                   | Some _ =>
                       report "INFO: create dos results nodes. dos calc retrieved node={}" ;;;
                       ret true
                   | None =>
                       report "ERROR: no dos calc retrieved node found" ;;;
                       report "Caught AttributeError {}" ;;;
                       ret false
                   end) ;;
    let outdict := [("results_wf", outputnode)] in
    outdict <- (if has_dosrun : bool then
                  dos_retrieved <- eval_attr (outputs_retrieved run) ;;
                  if bool_decide ("complex.dos" ∈ list_object_names dos_retrieved) then
                    let dosXyDatas := parse_dosfiles dos_retrieved in
                    ret (outdict ++ [("dos_data", XyNode (fst dosXyDatas));
                                     ("dos_data_interpol", XyNode (snd dosXyDatas))])
                  else ret outdict
                else ret outdict) ;;
    for_each_out outdict ;;;
    report (String.append "INFO: done with DOS workflow!" newline) ;;;
    ret None.

(** *** What [return_results] registers *)

Ltac run_all :=
  repeat (unfold bind, ret, raise, get_ctx, modify_ctx, emit, report, ctx_attr in *;
          cbn [fst snd ctx log] in * ).

Lemma bind_ok {A B} (m : wc context A) (k : A -> wc context B) (s : state context)
    (a : A) (s' : state context) :
  m s = (Ok a, s') -> bind m k s = k a s'.
Proof. intros H. unfold bind. rewrite H. reflexivity. Qed.

Lemma attr_run (name : string) (v : pyvalue) (s : state context) :
  attrs (ctx s) !! name = Some v -> attr name s = (Ok v, s).
Proof. intros H. unfold attr, ctx_attr. rewrite H. reflexivity. Qed.

Lemma for_each_out_run (outdict : list (string * out_node)) : forall s : state context,
  for_each_out outdict s
  = (Ok tt, mkState (mkCtx (attrs (ctx s)) (dosrun (ctx s)) (outputs (ctx s) ++ outdict))
                    (log s)).
Proof.
  induction outdict as [| [link_name node] rest IH]; intros s; cbn [for_each_out].
  - unfold ret. rewrite app_nil_r. destruct s as [[] ?]; reflexivity.
  - unfold bind at 1, out at 1, modify_ctx at 1. rewrite IH. cbn [ctx log attrs dosrun outputs].
    rewrite <- app_assoc. reflexivity.
Qed.

(** When the DOS calculation did not finish successfully, [return_results]
    returns ERROR_DOS_CALC_FAILED having registered no output node: it sets
    [successful] to False, reports the failure with the process state and
    appends the same message to [errors], and that is all. *)
Theorem return_results_failed_run (s : state context) (run : dosrun_node)
    (errs : list pyvalue) :
  dosrun (ctx s) = Some run ->
  is_finished_ok run = false ->
  attrs (ctx s) !! "errors" = Some (PyList errs) ->
  let out := return_results s in
  fst out = Ok (Some ERROR_DOS_CALC_FAILED)
  /\ outputs (ctx (snd out)) = outputs (ctx s)
  /\ dosrun (ctx (snd out)) = dosrun (ctx s)
  /\ attrs (ctx (snd out))
     = <["errors" := PyList (errs ++ [PyStr (failed_message run)])]>
         (<["successful" := PyBool false]> (attrs (ctx s)))
  /\ log (snd out) = log s ++ [Report (failed_message run)].
Proof.
  intros Hrun Hfin Herr. cbv zeta. unfold return_results, errors_append, attr, set_attr.
  run_all. rewrite Hrun, Hfin. cbn [negb]. run_all. cbn [attrs].
  rewrite lookup_insert_ne by discriminate. rewrite Herr.
  run_all. cbn [attrs dosrun outputs]. auto.
Qed.

(** The attributes [start] leaves in the context for [return_results]. *)
Definition started (c : context) (errs : list pyvalue) : Prop :=
  Forall (fun name => is_Some (attrs c !! name))
         ["use_mpi"; "resources"; "max_wallclock_seconds"; "queue";
          "custom_scheduler_commands"; "dos_params_dict"; "successful"]
  /\ attrs c !! "errors" = Some (PyList errs).

(** The DOS nodes made from a retrieved folder: both or none. *)
Definition dos_nodes (run : dosrun_node) : list (string * out_node) :=
  match outputs_retrieved run with
  | Some dos_retrieved =>
      if bool_decide ("complex.dos" ∈ list_object_names dos_retrieved)
      then [("dos_data", XyNode (fst (parse_dosfiles dos_retrieved)));
            ("dos_data_interpol", XyNode (snd (parse_dosfiles dos_retrieved)))]
      else []
  | None => []
  end.

Lemma return_results_finished_eq (s : state context) (run : dosrun_node)
    (errs : list pyvalue) :
  dosrun (ctx s) = Some run ->
  is_finished_ok run = true ->
  started (ctx s) errs ->
  exists d a' l',
    return_results s
    = (Ok None,
       mkState (mkCtx a' (Some run)
                  (outputs (ctx s) ++ ("results_wf", DictNode d) :: dos_nodes run)) l')
    /\ d !! "nspin" = res_nspin run
    /\ d !! "successful"
       = match res_nspin run with
         | Some _ => attrs (ctx s) !! "successful"
         | None => Some (PyBool false)
         end
    /\ d !! "list_of_errors"
       = Some (PyList (errs ++ match res_nspin run with
                               | Some _ => []
                               | None => [PyStr "ERROR: nspin not extracted"]
                               end))
    /\ d !! "queue_name" = attrs (ctx s) !! "queue"
    /\ d !! "dos_params" = attrs (ctx s) !! "dos_params_dict".
Proof.
  intros Hrun Hfin (Hattrs & Herr).
  repeat match type of Hattrs with
         | Forall _ (_ :: _) =>
             apply Forall_cons in Hattrs as [[? ?] Hattrs]
         end.
  destruct s as [[a dr outs] l]. cbn [ctx attrs dosrun outputs] in *. subst dr.
  unfold return_results.
  erewrite bind_ok by reflexivity. rewrite Hfin. cbn [negb].
  do 6 (erewrite bind_ok; [| apply attr_run; cbn [ctx attrs]; eassumption]).
  set (d0 := <["dos_params" := _]> _).
  assert (Hd0 : d0 !! "nspin" = None /\ d0 !! "queue_name" = Some x2
                /\ d0 !! "dos_params" = Some x4) by (subst d0; by simplify_map_eq).
  destruct Hd0 as (Hd0n & Hd0q & Hd0p).
  destruct (res_nspin run) as [nspin |].
  - erewrite bind_ok by reflexivity.
    do 2 (erewrite bind_ok; [| apply attr_run; cbn [ctx attrs]; eassumption]).
    unfold bind at 1, report at 1, emit at 1. cbn [ctx log].
    unfold dos_nodes.
    destruct (outputs_retrieved run) as [retr |]; cbn [eval_attr]; run_all;
      [destruct (bool_decide ("complex.dos" ∈ list_object_names retr)) |].
    all: rewrite for_each_out_run; cbn [ctx log attrs dosrun outputs];
      (eexists _, _, _; split; [reflexivity |]);
      rewrite app_nil_r; repeat split; by simplify_map_eq.
  - erewrite bind_ok;
      [| unfold errors_append, attr, set_attr; run_all; cbn [attrs];
         rewrite lookup_insert_ne by discriminate; rewrite Herr; run_all; reflexivity].
    erewrite bind_ok; [| apply attr_run; cbn [ctx attrs]; by simplify_map_eq].
    erewrite bind_ok; [| apply attr_run; cbn [ctx attrs]; by simplify_map_eq].
    unfold bind at 1, report at 1, emit at 1. cbn [ctx log].
    unfold dos_nodes.
    destruct (outputs_retrieved run) as [retr |]; cbn [eval_attr]; run_all;
      [destruct (bool_decide ("complex.dos" ∈ list_object_names retr)) |].
    all: rewrite for_each_out_run; cbn [ctx log attrs dosrun outputs];
      (eexists _, _, _; split; [reflexivity |]);
      repeat split; by simplify_map_eq.
Qed.

(** After a DOS calculation that finished successfully [return_results]
    returns no exit code and registers [results_wf] first, followed by
    [dos_data] and [dos_data_interpol] together exactly when the
    calculation has a retrieved folder with the file complex.dos. When
    [nspin] cannot be read from the calculation this is no failure of the
    step: [results_wf] then has no ['nspin'], its ['successful'] is False
    and the message is in its ['list_of_errors']. *)
Theorem return_results_finished_run (s : state context) (run : dosrun_node)
    (errs : list pyvalue) :
  dosrun (ctx s) = Some run ->
  is_finished_ok run = true ->
  started (ctx s) errs ->
  let out := return_results s in
  fst out = Ok None
  /\ exists d,
       outputs (ctx (snd out))
       = outputs (ctx s) ++ ("results_wf", DictNode d) :: dos_nodes run
       /\ d !! "nspin" = res_nspin run
       /\ d !! "successful"
          = match res_nspin run with
            | Some _ => attrs (ctx s) !! "successful"
            | None => Some (PyBool false)
            end
       /\ d !! "list_of_errors"
          = Some (PyList (errs ++ match res_nspin run with
                                  | Some _ => []
                                  | None => [PyStr "ERROR: nspin not extracted"]
                                  end))
       /\ d !! "queue_name" = attrs (ctx s) !! "queue"
       /\ d !! "dos_params" = attrs (ctx s) !! "dos_params_dict".
Proof.
  intros Hrun Hfin Hstarted. cbv zeta.
  destruct (return_results_finished_eq s run errs Hrun Hfin Hstarted)
    as (d & a' & l' & Heq & Hd).
  rewrite Heq. cbn [fst snd ctx outputs]. split; [reflexivity |].
  exists d. split; [reflexivity | exact Hd].
Qed.



End ReturnResults.
(** *** [return_results] on a concrete context.

    The retrieved folder is the list of its file names; the data nodes
    are the names of the two tables. *)
Module Example.

Definition parse (_ : list string) : string * string := ("dos", "dos_interpol").

Definition attrs0 : gmap string pyvalue :=
  <["errors" := PyList []]>
    (<["successful" := PyBool true]>
       (<["dos_params_dict" := PyDict ∅]>
          (<["custom_scheduler_commands" := PyStr ""]>
             (<["queue" := PyStr ""]>
                (<["max_wallclock_seconds" := PyInt 3600]>
                   (<["resources" := PyDict ∅]>
                      (<["use_mpi" := PyBool false]> ∅))))))).

Definition state0 (run : dosrun_node (list string))
  : state (context (list string) string) :=
  mkState (mkCtx (list string) string attrs0 (Some run) []) [].

Definition finished : dosrun_node (list string) :=
  mkDosrun (list string) true "finished" (Some (PyInt 2))
           (Some ["out_kkr"; "complex.dos"]).

Definition excepted : dosrun_node (list string) :=
  mkDosrun (list string) false "excepted" None None.

Definition results := return_results (list string) string (fun l => l) parse.

End Example.

Example return_results_links :
  fst (Example.results (Example.state0 Example.finished)) = Ok None
  /\ map fst (outputs _ _ (ctx (snd (Example.results (Example.state0 Example.finished)))))
     = ["results_wf"; "dos_data"; "dos_data_interpol"].
Proof. vm_compute. auto. Qed.

Lemma return_results_failed_run_witness :
  let out := Example.results (Example.state0 Example.excepted) in
  fst out = Ok (Some ERROR_DOS_CALC_FAILED)
  /\ outputs _ _ (ctx (snd out)) = []
  /\ log (snd out)
     = [Report "ERROR: DOS calculation failed somehow it is in state excepted"].
Proof.
  intros out.
  destruct (return_results_failed_run (list string) string (fun l => l) Example.parse
              (Example.state0 Example.excepted) Example.excepted [] eq_refl eq_refl)
    as (Hret & Hout & _ & _ & Hlog).
  - vm_compute. reflexivity.
  - split; [exact Hret | split; [exact Hout | exact Hlog]].
Defined.

Lemma return_results_finished_run_witness :
  let out := Example.results (Example.state0 Example.finished) in
  fst out = Ok None
  /\ exists d,
       outputs _ _ (ctx (snd out))
       = [("results_wf", DictNode string d); ("dos_data", XyNode string "dos");
          ("dos_data_interpol", XyNode string "dos_interpol")]
       /\ d !! "nspin" = Some (PyInt 2)
       /\ d !! "list_of_errors" = Some (PyList []).
Proof.
  intros out.
  destruct (return_results_finished_run (list string) string (fun l => l) Example.parse
              (Example.state0 Example.finished) Example.finished [] eq_refl eq_refl)
    as (Hret & d & Hout & Hnspin & _ & Herrs & _).
  - split; [| vm_compute; reflexivity].
    repeat (apply List.Forall_cons; [vm_compute; eexists; reflexivity |]).
    apply List.Forall_nil.
  - split; [exact Hret |]. exists d.
    split; [exact Hout | split; [exact Hnspin | exact Herrs]].
Defined.


End DosSteps.

(** ** The output parser: reference record of the tests and the contract
       of [parse_kkr_outputfile] *)
Module KkrParser.
Local Open Scope nat_scope.

(** *** The aggregation engine. *)

(** The six output files handed to [parse_kkr_outputfile]. *)
Inductive file_id : Type :=
| outfile | outfile_0init | outfile_000 | timing_file | potfile_out | nonco_out_file.

#[global] Instance file_id_eq_dec : EqDecision file_id.
Proof. solve_decision. Defined.

(** The quantity groups in canonical order, each with the files it is
    read from. Names and files are those of the message lists that the
    tests of tests/test_kkrparser_functions.py write down for each missing
    file; the order agrees with the order within each of these lists. *)
Definition canonical_extractors : list (string * list file_id) :=
  [("Version Info", [outfile]);
   ("nspin/natom", [outfile_0init]);
   ("rms-error", [outfile; outfile_000]);
   ("charge neutrality", [outfile]);
   ("total magnetic moment", [outfile]);
   ("spin moment per atom", [outfile; outfile_0init; nonco_out_file]);
   ("orbital moment", [outfile; outfile_0init]);
   ("EF", [outfile]);
   ("DOS@EF", [outfile]);
   ("total energy", [outfile]);
   ("search for warnings", [outfile]);
   ("timings", [timing_file]);
   ("core_states", [potfile_out]);
   ("energy contour", [outfile_0init]);
   ("alat, 2*pi/alat", [outfile_0init]);
   ("single particle energies", [outfile_000]);
   ("charges", [outfile; outfile_000]);
   ("scfinfo", [outfile; outfile_0init; outfile_000]);
   ("kmesh", [outfile_0init; outfile_000]);
   ("symmetries", [outfile_0init]);
   ("ewald summation for madelung poterntial", [outfile_0init])].

Definition error_message (name : string) : string :=
  String.append "Error parsing output of KKR: " name.

Section Engine.

(** Text of a file, and the key-value pairs an extractor adds to the
    record. *)
Variables (content entry : Type).

(** What the named extractor makes of the files it reads: [None] when an
    anchor is missing or a token is malformed. *)
Variable extract : string -> list content -> option (list entry).

(** A set of output files: [None] for a file that is absent. *)
Definition file_set : Type := file_id -> option content.

(** Modelled from the spec: one extractor of the Aggregation & Validation
    Engine ([parse_kkr_outputfile] is not part of these sources). It fails
    when a file it reads is absent or when it cannot make sense of the
    text, and it sees nothing but the files it reads. *)
Definition run_extractor (fs : file_set) (e : string * list file_id)
  : option (list entry) :=
  match mapM fs (snd e) with
  | Some texts => extract (fst e) texts
  | None => None
  end.

(** Modelled from the spec: the messages of the failed extractors, in
    canonical order. *)
Definition messages (fs : file_set) : list string :=
  flat_map (fun e => match run_extractor fs e with
                     | Some _ => []
                     | None => [error_message (fst e)]
                     end) canonical_extractors.

(** Modelled from the spec: the extractors that failed. *)
Definition failed (fs : file_set) : list (string * list file_id) :=
  filter (fun e => run_extractor fs e = None) canonical_extractors.

(** Modelled from the spec: the record, to which every extractor that
    succeeded has added its entries. *)
Definition record_of (out_dict : list entry) (fs : file_set) : list entry :=
  out_dict ++ flat_map (fun e => default [] (run_extractor fs e)) canonical_extractors.

(** Modelled from the spec: [parse_kkr_outputfile], returning
    [(success, msg_list, out_dict)]; success when no extractor failed.
    Every extractor of the canonical list is mandatory. *)
Definition parse_kkr_outputfile (out_dict : list entry) (fs : file_set)
  : bool * list string * list entry :=
  (Nat.eqb (length (failed fs)) 0, messages fs, record_of out_dict fs).


(** Every extractor finds its anchors and well-formed tokens in the files
    that are there. *)
Definition valid (fs : file_set) : Prop :=
  forall e texts, e ∈ canonical_extractors ->
    mapM fs (snd e) = Some texts -> is_Some (extract (fst e) texts).

(** [fs] without the file [f]. *)
Definition remove_file (f : file_id) (fs : file_set) : file_set :=
  fun g => if decide (g = f) then None else fs g.

(** *** Properties of the engine *)

Definition message_of (fs : file_set) (e : string * list file_id) : list string :=
  match run_extractor fs e with
  | Some _ => []
  | None => [error_message (fst e)]
  end.

Lemma messages_nil_iff (fs : file_set) (l : list (string * list file_id)) :
  flat_map (message_of fs) l = [] <-> Forall (fun e => is_Some (run_extractor fs e)) l.
Proof.
  induction l as [| e l IH]; cbn [flat_map].
  - split; [constructor | reflexivity].
  - unfold message_of at 1. destruct (run_extractor fs e) as [kv |] eqn:He.
    + cbn [app]. rewrite IH. split.
      * intros H. constructor; [rewrite He; eauto | exact H].
      * intros H. inversion H; assumption.
    + split; [discriminate |]. intros H. inversion H as [| ? ? Hs _]; subst.
      rewrite He in Hs. destruct Hs; discriminate.
Qed.

Lemma failed_nil_iff (fs : file_set) (l : list (string * list file_id)) :
  filter (fun e => run_extractor fs e = None) l = []
  <-> Forall (fun e => is_Some (run_extractor fs e)) l.
Proof.
  induction l as [| e l IH].
  - split; [constructor | reflexivity].
  - rewrite filter_cons. destruct (decide (run_extractor fs e = None)) as [He | He].
    + split; [discriminate |]. intros H. inversion H as [| ? ? Hs _]; subst.
      rewrite He in Hs. destruct Hs; discriminate.
    + rewrite IH. split.
      * intros H. constructor; [| exact H].
        destruct (run_extractor fs e); [eauto | contradiction].
      * intros H. inversion H; assumption.
Qed.

(** An extractor whose files are all there runs on a valid file set. *)
Lemma run_extractor_present (fs : file_set) (e : string * list file_id) :
  valid fs -> e ∈ canonical_extractors ->
  Forall (fun f => is_Some (fs f)) (snd e) ->
  is_Some (run_extractor fs e).
Proof.
  intros Hvalid He Hfiles. unfold run_extractor.
  destruct (mapM fs (snd e)) as [texts |] eqn:Hm.
  - exact (Hvalid e texts He Hm).
  - exfalso. apply mapM_is_Some_2 in Hfiles. rewrite Hm in Hfiles.
    destruct Hfiles; discriminate.
Qed.

(** An extractor sees only the files it reads. *)
Lemma run_extractor_agree (fs fs' : file_set) (e : string * list file_id) :
  (forall f, f ∈ snd e -> fs' f = fs f) ->
  run_extractor fs' e = run_extractor fs e.
Proof.
  intros Hagree. unfold run_extractor.
  replace (mapM fs' (snd e)) with (mapM fs (snd e)); [reflexivity |].
  induction (snd e) as [| f l IH]; [reflexivity |].
  cbn [mapM]. rewrite (Hagree f) by apply list_elem_of_here.
  rewrite IH; [reflexivity |].
  intros g Hg. apply Hagree. by apply list_elem_of_further.
Qed.





Definition spin_moment_per_atom : string := "spin moment per atom".

(** Only the extractor of the spin moment per atom reads the angle file. *)
Lemma nonco_read_by_spin_moment_only :
  Forall (fun e : string * list file_id =>
            fst e <> spin_moment_per_atom -> nonco_out_file ∉ snd e)
         canonical_extractors.
Proof. apply (bool_decide_unpack _). vm_compute. exact I. Qed.

Lemma canonical_extractors_split :
  canonical_extractors
  = take 5 canonical_extractors
    ++ [(spin_moment_per_atom, [outfile; outfile_0init; nonco_out_file])]
    ++ drop 6 canonical_extractors.
Proof. reflexivity. Qed.

Lemma canonical_extractors_others :
  Forall (fun e : string * list file_id =>
            e ∈ canonical_extractors /\ fst e <> spin_moment_per_atom)
         (take 5 canonical_extractors ++ drop 6 canonical_extractors).
Proof. apply (bool_decide_unpack _). vm_compute. exact I. Qed.

(** C7. When only the non-collinear angle file is absent, the other five
    files being there and valid, [parse_kkr_outputfile] returns failure
    with the single message of the spin moment per atom. Every other
    extractor runs, and gives what it gives on any file set with the same
    five files: it is not blocked. *)
Theorem parse_missing_nonco_angles (out_dict : list entry) (fs : file_set) :
  fs nonco_out_file = None ->
  (forall f, f <> nonco_out_file -> is_Some (fs f)) ->
  valid fs ->
  let out := parse_kkr_outputfile out_dict fs in
  fst (fst out) = false
  /\ snd (fst out) = ["Error parsing output of KKR: spin moment per atom"]
  /\ (forall e, e ∈ canonical_extractors -> fst e <> spin_moment_per_atom ->
      is_Some (run_extractor fs e)
      /\ forall fs' : file_set, (forall f, f <> nonco_out_file -> fs' f = fs f) ->
           run_extractor fs' e = run_extractor fs e).
Proof.
  intros Hnonco Hothers Hvalid. cbv zeta.
  pose proof (proj1 (Forall_forall _ _) nonco_read_by_spin_moment_only) as Hreads.
  assert (Hrun : forall e, e ∈ canonical_extractors -> fst e <> spin_moment_per_atom ->
                   is_Some (run_extractor fs e)).
  { intros e He Hname. apply run_extractor_present; [assumption | assumption |].
    apply Forall_forall. intros f Hf. apply Hothers. intros ->.
    exact (Hreads e He Hname Hf). }
  assert (Hspin : run_extractor fs (spin_moment_per_atom,
                                     [outfile; outfile_0init; nonco_out_file]) = None).
  { unfold run_extractor. cbn [snd mapM].
    destruct (fs outfile); cbn; [| reflexivity].
    destruct (fs outfile_0init); cbn; [| reflexivity].
    rewrite Hnonco. reflexivity. }
  assert (Hmsgs : messages fs = [error_message spin_moment_per_atom]).
  { unfold messages. fold (message_of fs).
    rewrite canonical_extractors_split, !flat_map_app.
    pose proof canonical_extractors_others as Hoth.
    apply Forall_app in Hoth as [Hbefore Hafter].
    assert (Hpart : forall l,
              Forall (fun e : string * list file_id =>
                        e ∈ canonical_extractors /\ fst e <> spin_moment_per_atom) l ->
              flat_map (message_of fs) l = []).
    { intros l Hl. apply messages_nil_iff.
      eapply Forall_impl; [exact Hl |]. intros e [He Hname]. auto. }
    rewrite (Hpart _ Hbefore), (Hpart _ Hafter).
    cbn [flat_map app]. unfold message_of. rewrite Hspin. reflexivity. }
  unfold parse_kkr_outputfile. cbn [fst snd]. split; [| split].
  - apply Nat.eqb_neq. intros Hlen.
    assert (Hnil : failed fs = []) by (destruct (failed fs); [reflexivity | discriminate]).
    unfold failed in Hnil. apply failed_nil_iff, messages_nil_iff in Hnil.
    unfold messages in Hmsgs. fold (message_of fs) in Hmsgs.
    rewrite Hnil in Hmsgs. discriminate.
  - exact Hmsgs.
  - intros e He Hname. split; [exact (Hrun e He Hname) |].
    intros fs' Hagree. apply run_extractor_agree. intros f Hf. apply Hagree.
    intros ->. exact (Hreads e He Hname Hf).
Qed.

End Engine.

(** *** The engine on a small instance: texts are strings and every
        extractor that gets its files adds its own name to the record. *)
Module Example.
Definition extract (name : string) (texts : list string) : option (list string) :=
  Some [name].
Definition all_present : file_set string := fun _ => Some "".
Definition parse : file_set string -> bool * list string * list string :=
  parse_kkr_outputfile string string extract [].
End Example.

Example parse_all_present :
  fst (Example.parse Example.all_present) = (true, []).
Proof. vm_compute. reflexivity. Qed.

Example parse_without_nonco_angles :
  fst (Example.parse (remove_file string nonco_out_file Example.all_present))
  = (false, ["Error parsing output of KKR: spin moment per atom"]).
Proof. vm_compute. reflexivity. Qed.

Example parse_without_potfile :
  fst (Example.parse (remove_file string potfile_out Example.all_present))
  = (false, ["Error parsing output of KKR: core_states"]).
Proof. vm_compute. reflexivity. Qed.


Lemma parse_missing_nonco_angles_witness :
  let fs := remove_file string nonco_out_file Example.all_present in
  fst (fst (Example.parse fs)) = false
  /\ snd (fst (Example.parse fs)) = ["Error parsing output of KKR: spin moment per atom"].
Proof.
  intros fs.
  destruct (parse_missing_nonco_angles string string Example.extract [] fs)
    as (Hfail & Hmsg & _).
  - reflexivity.
  - intros f Hf. destruct f; cbn; eauto. contradiction.
  - intros e texts _ _. unfold Example.extract. eauto.
  - split; [exact Hfail | exact Hmsg].
Defined.

End KkrParser.
